(** * ArxivSurveyAgent: retrieval, two-stage deduplication, analysis

    A shallow embedding of the parts of [lit_review_agent] that the
    specification talks about:

    - [retrieval/arxiv_client.py]: [ArxivClient.translate_chinese_query]
      and [ArxivClient.search];
    - [agent.py]: the two deduplication loops, the truncation to
      [max_papers] and the per-item AI processing loop of
      [LiteratureAgent.conduct_literature_review];
    - [ai_core/llm_manager.py]: [LLMManager._make_request];
    - [ai_core/summarizer.py]: [Summarizer.summarize_text].

    Python [str] values are sequences of Unicode code points; a Python
    [set] is a [gset]; a call that may raise returns a [result].  The
    definitions come first, the lemmas and theorems after them. *)

From Stdlib Require Import NArith ZArith String Ascii.
From stdpp Require Import base decidable option list gmap sets.

Local Open Scope N_scope.

(** ** Python strings *)

Module PyStr.

(** A [str] is the list of its code points. *)
Definition pystr : Type := list N.

(** UTF-8 decoding, used only to write string literals of the source
    (the keyword table holds Chinese text) as Rocq string literals. *)
Fixpoint utf8_decode (bs : list N) : pystr :=
  match bs with
  | [] => []
  | b1 :: r1 =>
    if b1 <? 128 then b1 :: utf8_decode r1
    else
      match r1 with
      | [] => [b1]
      | b2 :: r2 =>
        if b1 <? 224 then
          (N.land b1 31 * 64 + N.land b2 63) :: utf8_decode r2
        else
          match r2 with
          | [] => [b1; b2]
          | b3 :: r3 =>
            if b1 <? 240 then
              (N.land b1 15 * 4096 + N.land b2 63 * 64 + N.land b3 63)
                :: utf8_decode r3
            else
              match r3 with
              | [] => [b1; b2; b3]
              | b4 :: r4 =>
                (N.land b1 7 * 262144 + N.land b2 63 * 4096
                 + N.land b3 63 * 64 + N.land b4 63) :: utf8_decode r4
              end
          end
      end
  end.

Definition py (s : string) : pystr :=
  utf8_decode (map N_of_ascii (list_ascii_of_string s)).
Arguments py s%_string.

(** [len(s) == 0] is the only falsy string. *)
Definition nonempty (s : pystr) : bool :=
  match s with [] => false | _ :: _ => true end.

(** [str.isspace] on one code point: the Unicode whitespace set that
    [str.strip()] and [str.split()] use as well. *)
Definition isspace (c : N) : bool :=
  ((9 <=? c) && (c <=? 13)) || ((28 <=? c) && (c <=? 32))
  || (c =? 133) || (c =? 160) || (c =? 5760)
  || ((8192 <=? c) && (c <=? 8202))
  || (c =? 8232) || (c =? 8233) || (c =? 8239) || (c =? 8287)
  || (c =? 12288).

(** [s.lstrip()], [s.rstrip()], [s.strip()]. *)
Fixpoint lstrip (s : pystr) : pystr :=
  match s with
  | [] => []
  | c :: s' => if isspace c then lstrip s' else s
  end.

Definition rstrip (s : pystr) : pystr := reverse (lstrip (reverse s)).

Definition strip (s : pystr) : pystr := rstrip (lstrip s).

(** [s.split()] with no argument: the maximal runs of non-whitespace.
    [cur] is the run being read, kept in reading order. *)
Fixpoint split_go (cur : pystr) (s : pystr) : list pystr :=
  match s with
  | [] => match cur with [] => [] | _ => [cur] end
  | c :: s' =>
    if isspace c then
      match cur with
      | [] => split_go [] s'
      | _ => cur :: split_go [] s'
      end
    else split_go (cur ++ [c]) s'
  end.

Definition split (s : pystr) : list pystr := split_go [] s.

(** A string that does not start with whitespace. *)
Definition starts_clean (s : pystr) : Prop :=
  match s with
  | [] => True
  | c :: _ => isspace c = false
  end.

(** A run of [split]: not empty, no whitespace in it. *)
Definition is_word (w : pystr) : Prop :=
  w <> [] /\ Forall (fun c => isspace c = false) w.

(** [sep.join(parts)]. *)
Fixpoint join (sep : pystr) (parts : list pystr) : pystr :=
  match parts with
  | [] => []
  | [p] => p
  | p :: ps => p ++ sep ++ join sep ps
  end.

(** [s.startswith(old)]. *)
Fixpoint startswith (old s : pystr) : bool :=
  match old, s with
  | [], _ => true
  | _ :: _, [] => false
  | a :: old', b :: s' => (a =? b) && startswith old' s'
  end.

(** [old in s]. *)
Fixpoint contains (old s : pystr) : bool :=
  startswith old s ||
  match s with
  | [] => false
  | _ :: s' => contains old s'
  end.

(** [s.replace(old, new)] for a non-empty [old]: every non-overlapping
    occurrence, leftmost first.  [skip] counts the code points of an
    occurrence that are still to be consumed. *)
Fixpoint replace_go (old new : pystr) (skip : nat) (s : pystr) : pystr :=
  match s with
  | [] => []
  | c :: s' =>
    match skip with
    | S k => replace_go old new k s'
    | O =>
      if startswith old s
      then new ++ replace_go old new (Nat.pred (length old)) s'
      else c :: replace_go old new O s'
    end
  end.

(** With an empty [old], Python puts [new] before every code point and
    at the end. *)
Definition replace (old new s : pystr) : pystr :=
  match old with
  | [] => new ++ flat_map (fun c => c :: new) s
  | _ :: _ => replace_go old new O s
  end.

(** [str.lower] and [str.isalnum] on ASCII text.  On other code points
    both depend on the Unicode character database; the functions of the
    program take them as parameters, and these two are what they are on
    ASCII strings. *)
Definition ascii_lower_char (c : N) : N :=
  if (65 <=? c) && (c <=? 90) then c + 32 else c.

Definition ascii_lower (s : pystr) : pystr := map ascii_lower_char s.

Definition ascii_isalnum (c : N) : bool :=
  ((48 <=? c) && (c <=? 57)) || ((65 <=? c) && (c <=? 90))
  || ((97 <=? c) && (c <=? 122)).

End PyStr.

Import PyStr.

(** A call that returns a value or raises. *)
Inductive result (E A : Type) : Type :=
| Ok (a : A)
| Raise (e : E).
Arguments Ok {E A} a.
Arguments Raise {E A} e.

(** ** First-seen deduplication by key

    Both deduplication loops of [conduct_literature_review] keep a set of
    the keys seen so far and append an item unless its key is in the set.
    [first_seen] is that loop as a recursive function; an item whose key
    is [None] has no key and is never looked up. *)

Section first_seen.
Context {A K : Type} {K_eq : EqDecision K} {K_count : Countable K}.
Variable key : A -> option K.

Fixpoint first_seen (seen : gset K) (l : list A) : list A :=
  match l with
  | [] => []
  | x :: l' =>
    match key x with
    | None => x :: first_seen seen l'
    | Some k =>
      if decide (k ∈ seen) then first_seen seen l'
      else x :: first_seen ({[k]} ∪ seen) l'
    end
  end.

(** The keys carried by the items of a list, in order. *)
Definition keys (l : list A) : list K := omap key l.

End first_seen.

(** ** The data model: [retrieval/base_retriever.py]

    The fields of [LiteratureItem] that the pipeline reads.  [id] is
    spelled [item_id]; [publication_date] holds the [isoformat()] text of
    the date. *)

Record LiteratureItem : Type := mkItem {
  item_id : pystr;
  title : pystr;
  authors : list pystr;
  abstract : option pystr;
  full_text : option pystr;
  publication_date : option pystr;
  doi : option pystr;
  arxiv_id : option pystr;
  url : option pystr;
  pdf_url : option pystr;
  source : pystr
}.

(** Truth value of an [Optional[str]]: [None] and the empty string are
    falsy. *)
Definition truthy (o : option pystr) : bool :=
  match o with
  | Some s => nonempty s
  | None => false
  end.

(** ** Deduplication and truncation: [agent.py], lines 350-418 *)

Module Dedup.

Section passes.
(** [str.lower], [str.isalnum] and the built-in [hash] of a pair of
    strings. *)
Variable lower : pystr -> pystr.
Variable isalnum : N -> bool.
Variable hash : pystr * pystr -> Z.

(** *** Stage 1, lines 350-372 *)

(** The value of [unique_id] after the [if item.doi: ... elif
    item.arxiv_id: ...] of lines 354-360. *)
Definition unique_id (item : LiteratureItem) : option pystr :=
  if truthy (doi item) then lower <$> doi item
  else if truthy (arxiv_id item) then lower <$> arxiv_id item
  else None.

(** One iteration of the loop of line 353; the state is
    [(seen_ids_for_dedup, temp_deduped_items_by_id)]. *)
Definition strong_step (st : gset pystr * list LiteratureItem)
    (item : LiteratureItem) : gset pystr * list LiteratureItem :=
  let '(seen_ids_for_dedup, temp_deduped_items_by_id) := st in
  match unique_id item with
  | Some u =>
    if nonempty u && bool_decide (u ∈ seen_ids_for_dedup) then st
    else
      (if nonempty u then {[u]} ∪ seen_ids_for_dedup
       else seen_ids_for_dedup,
       temp_deduped_items_by_id ++ [item])
  | None => (seen_ids_for_dedup, temp_deduped_items_by_id ++ [item])
  end.

Definition strong_pass (retrieved_items : list LiteratureItem)
    : list LiteratureItem :=
  (foldl strong_step (∅, []) retrieved_items).2.

(** The identifier an item is deduplicated on: its [unique_id] when that
    is a truthy string.  A DOI and an arXiv id live in the same set. *)
Definition id_key (item : LiteratureItem) : option pystr :=
  match unique_id item with
  | Some u => if nonempty u then Some u else None
  | None => None
  end.

(** *** Stage 2, lines 379-401 *)

Definition norm_title (item : LiteratureItem) : pystr :=
  strip (filter (fun e => isalnum e || isspace e) (lower (title item))).

Definition first_author_norm (item : LiteratureItem) : pystr :=
  match authors item with
  | a :: _ => strip (lower a)
  | [] => py "unknown_author"
  end.

Definition title_author_pair (item : LiteratureItem) : pystr * pystr :=
  (norm_title item, first_author_norm item).

Definition title_author_key (item : LiteratureItem) : Z :=
  hash (title_author_pair item).

(** One iteration of the loop of line 382; the state is
    [(seen_title_author_hash, final_deduped_items)]. *)
Definition soft_step (st : gset Z * list LiteratureItem)
    (item : LiteratureItem) : gset Z * list LiteratureItem :=
  let '(seen_title_author_hash, final_deduped_items) := st in
  if bool_decide (title_author_key item ∈ seen_title_author_hash) then st
  else ({[title_author_key item]} ∪ seen_title_author_hash,
        final_deduped_items ++ [item]).

Definition soft_pass (retrieved_items : list LiteratureItem)
    : list LiteratureItem :=
  (foldl soft_step (∅, []) retrieved_items).2.

(** Both stages, lines 350-401. *)
Definition deduplicate (retrieved_items : list LiteratureItem)
    : list LiteratureItem :=
  soft_pass (strong_pass retrieved_items).

(** *** Truncation, lines 409-418 *)

(** [l[:n]] for a Python [int] [n]: a negative [n] counts from the end. *)
Definition slice_to (n : Z) (l : list LiteratureItem)
    : list LiteratureItem :=
  if (0 <=? n)%Z then take (Z.to_nat n) l
  else take (Z.to_nat (Z.of_nat (length l) + n)) l.

Definition truncate (max_papers : Z) (retrieved_items : list LiteratureItem)
    : list LiteratureItem :=
  if (max_papers <? Z.of_nat (length retrieved_items))%Z
  then slice_to max_papers retrieved_items
  else retrieved_items.

Definition dedup_and_truncate (max_papers : Z)
    (retrieved_items : list LiteratureItem) : list LiteratureItem :=
  truncate max_papers (deduplicate retrieved_items).

(** *** The soft pass as the specification words it

    The specification normalises the title and the first author alike,
    by lowercasing and dropping every character that is neither
    alphanumeric nor a space, and lets two items collide exactly when the
    two normalised strings agree. *)

Definition spec_normalize (s : pystr) : pystr :=
  filter (fun e => isalnum e || isspace e) (lower s).

Definition spec_pair (item : LiteratureItem) : pystr * pystr :=
  (spec_normalize (title item),
   match authors item with
   | a :: _ => spec_normalize a
   | [] => py "unknown_author"
   end).

Definition soft_pass_spec (items : list LiteratureItem)
    : list LiteratureItem :=
  first_seen (fun x => Some (spec_pair x)) ∅ items.

(** *** The strong pass as the specification words it

    The claim groups the items by DOI and, those without a DOI, by arXiv
    id: a DOI and an arXiv id are identifiers of two kinds, and an item
    is dropped only after an earlier item with the same identifier of the
    same kind. *)

Definition spec_id_key (item : LiteratureItem) : option (pystr + pystr) :=
  if truthy (doi item) then inl <$> (lower <$> doi item)
  else if truthy (arxiv_id item) then inr <$> (lower <$> arxiv_id item)
  else None.

Definition strong_pass_spec (items : list LiteratureItem)
    : list LiteratureItem :=
  first_seen spec_id_key ∅ items.

End passes.

End Dedup.

(** ** Exceptions: [exceptions.py] and the built-in classes used *)

Inductive ExcClass : Type :=
| Exception
| TimeoutError
| KeyError
| LiteratureReviewError
| OperationTimeoutError
| OtherException (name : pystr).

(** An exception object: its class and [str(e)]. *)
Record PyExc : Type := mkExc {
  exc_class : ExcClass;
  exc_str : pystr
}.

(** ** The arXiv retriever: [retrieval/arxiv_client.py] *)

Module ArxivClient.

(** The values a caller can pass as [query]. *)
Inductive pyval : Type :=
| VStr (s : pystr)
| VNone
| VInt (z : Z)
| VBool (b : bool).

(** [CHINESE_TO_ENGLISH], in insertion order (lines 17-59). *)
Definition CHINESE_TO_ENGLISH : list (pystr * pystr) :=
  [ (py "深度学习", py "deep learning");
    (py "机器学习", py "machine learning");
    (py "人工智能", py "artificial intelligence");
    (py "神经网络", py "neural network");
    (py "卷积神经网络", py "convolutional neural network");
    (py "循环神经网络", py "recurrent neural network");
    (py "transformer", py "transformer");
    (py "注意力机制", py "attention mechanism");
    (py "自然语言处理", py "natural language processing");
    (py "计算机视觉", py "computer vision");
    (py "强化学习", py "reinforcement learning");
    (py "优化算法", py "optimization algorithm");
    (py "梯度下降", py "gradient descent");
    (py "反向传播", py "backpropagation");
    (py "损失函数", py "loss function");
    (py "正则化", py "regularization");
    (py "批量归一化", py "batch normalization");
    (py "学习率", py "learning rate");
    (py "医疗", py "medical");
    (py "诊断", py "diagnosis");
    (py "图像识别", py "image recognition");
    (py "语音识别", py "speech recognition");
    (py "推荐系统", py "recommendation system");
    (py "自动驾驶", py "autonomous driving");
    (py "最新研究", py "recent research");
    (py "综述", py "survey");
    (py "算法", py "algorithm");
    (py "模型", py "model");
    (py "方法", py "method");
    (py "技术", py "technique");
    (py "应用", py "application");
    (py "性能", py "performance");
    (py "准确率", py "accuracy");
    (py "效果", py "effectiveness") ].

(** [chinese_stopwords] (lines 116-117). *)
Definition chinese_stopwords : list pystr :=
  map py
    [ "的"; "在"; "中"; "与"; "和"; "或"; "关于"; "对于"; "基于"; "通过";
      "使用"; "采用"; "研究"; "分析"; "方法"; "技术"; "算法"; "模型";
      "系统"; "应用"; "实现"; "设计"; "开发"; "提出"; "改进"; "优化";
      "评估"; "实验"; "结果"; "效果"; "性能"; "比较"; "分析"; "讨论";
      "总结"; "结论" ]%string.

(** ['一' <= char <= '鿿']. *)
Definition is_chinese (char : N) : bool :=
  (19968 <=? char) && (char <=? 40959).

(** Line 101. *)
Definition has_chinese (query : pystr) : bool := existsb is_chinese query.

(** The loop of lines 110-113. *)
Definition apply_table (query : pystr) : pystr :=
  foldl (fun translated_query '(chinese, english) =>
           if contains chinese translated_query
           then replace chinese english translated_query
           else translated_query)
        query CHINESE_TO_ENGLISH.

(** The loop of lines 118-119. *)
Definition remove_stopwords (translated_query : pystr) : pystr :=
  foldl (fun translated_query stopword =>
           replace stopword (py " ") translated_query)
        translated_query chinese_stopwords.

(** Line 122: [" ".join(translated_query.split())]. *)
Definition squeeze (translated_query : pystr) : pystr :=
  join (py " ") (split translated_query).

(** Lines 125-126. *)
Definition or_default (translated_query : pystr) : pystr :=
  if negb (nonempty (strip translated_query))
     || (length (strip translated_query) <? 3)%nat
  then py "machine learning"
  else translated_query.

(** Lines 87-131. *)
Definition translate_chinese_query (query : pyval) : pyval :=
  match query with
  | VStr s =>
    if negb (nonempty s) then query
    else if negb (has_chinese s) then query
    else VStr (or_default (squeeze (remove_stopwords (apply_table s))))
  | _ => query
  end.

(** The number of non-space characters, in which the specification
    measures a near-empty query. *)
Definition non_space_count (s : pystr) : nat :=
  length (filter (fun c => isspace c = false) s).

(** The arguments of [arxiv.Search] built at lines 157-177. *)
Record Search : Type := mkSearch {
  search_query : pyval;
  search_max_results : Z
}.

Definition search_request (self_max_results : Z) (query : pyval)
    (max_results : Z) : Search :=
  mkSearch (translate_chinese_query query)
           (Z.min max_results self_max_results).

(** [timeout=45] at line 190, in seconds. *)
Definition search_timeout : N := 45.

Section search.
(** An [arxiv.Result], and [_convert_arxiv_result]. *)
Variable ArxivResult : Type.
Variable _convert_arxiv_result : ArxivResult -> result PyExc LiteratureItem.

(** What [self.client.results(search)] does in the executor thread: when
    it finishes (milliseconds after the call; [None] when it never does)
    and with what. *)
Record Reply : Type := mkReply {
  finishes_after : option N;
  fetched : result PyExc (list ArxivResult)
}.

Variable client_results : Search -> Reply.
Variable self_max_results : Z.

(** Lines 180-185: an API error is logged and becomes the empty list. *)
Definition search_arxiv (search : Search) : list ArxivResult :=
  match fetched (client_results search) with
  | Ok results => results
  | Raise _ => []
  end.

(** Whether the executor finishes within [timeout] seconds. *)
Definition in_time (finishes : option N) (timeout : N) : bool :=
  match finishes with
  | Some t => t <=? 1000 * timeout
  | None => false
  end.

(** [asyncio.wait_for(fut, timeout)]: the time waited, in milliseconds,
    and the outcome. *)
Definition wait_for {A : Type} (finishes : option N) (value : A)
    (timeout : N) : N * result PyExc A :=
  if in_time finishes timeout
  then (default 0 finishes, Ok value)
  else (1000 * timeout, Raise (mkExc TimeoutError [])).

(** Lines 194-197. *)
Fixpoint convert_all (results : list ArxivResult)
    : result PyExc (list LiteratureItem) :=
  match results with
  | [] => Ok []
  | r :: results' =>
    match _convert_arxiv_result r with
    | Raise e => Raise e
    | Ok item =>
      match convert_all results' with
      | Raise e => Raise e
      | Ok literature_items => Ok (item :: literature_items)
      end
    end
  end.

(** The two handlers of lines 203-208. *)
Definition search_handlers (e : PyExc) : PyExc :=
  match exc_class e with
  | TimeoutError =>
    mkExc Exception (py "ArXiv search timed out after 45 seconds")
  | _ => mkExc Exception (py "ArXiv search failed: " ++ exc_str e)
  end.

(** [search], lines 154-208: the time spent waiting for the executor and
    the outcome. *)
Definition search (query : pyval) (max_results : Z)
    : N * result PyExc (list LiteratureItem) :=
  let request := search_request self_max_results query max_results in
  let '(waited, outcome) :=
    wait_for (finishes_after (client_results request))
             (search_arxiv request) search_timeout in
  match outcome with
  | Raise e => (waited, Raise (search_handlers e))
  | Ok results =>
    match convert_all results with
    | Ok literature_items => (waited, Ok literature_items)
    | Raise e => (waited, Raise (search_handlers e))
    end
  end.

End search.

End ArxivClient.

(** ** The LLM request layer: [ai_core/llm_manager.py] *)

Module LLMManager.

(** [llm_max_retries: int = Field(default=3, ...)], [utils/config.py]. *)
Definition llm_max_retries_default : Z := 3.

(** The argument of an [asyncio.sleep]: a number of seconds (line 133 and
    line 140), or a multiple of [config.llm_rate_limit_delay]
    (line 125). *)
Inductive Delay : Type :=
| Seconds (n : Z)
| RateLimitDelay (times : Z).

(** What [_make_request] does to the outside: it sends the request of an
    attempt, or it sleeps. *)
Inductive Event : Type :=
| Sent (attempt : Z)
| Slept (d : Delay).

(** What sending the request of one attempt leads to: a 2xx response whose
    body parses, [httpx.HTTPStatusError] from [raise_for_status],
    [httpx.RequestError] (transport), or any other exception. *)
Inductive Outcome (Data : Type) : Type :=
| Response (response_data : Data)
| HTTPStatusError (status_code : Z) (text : pystr)
| RequestError
| OtherError.
Arguments Response {Data} response_data.
Arguments HTTPStatusError {Data} status_code text.
Arguments RequestError {Data}.
Arguments OtherError {Data}.

Inductive Method : Type := POST | GET | UnsupportedMethod.

(** The [LLMManagerError]s of [_make_request], one per [raise]:
    line 82, line 118, line 128, line 137, line 146, line 148. *)
Inductive LLMManagerError : Type :=
| BaseUrlNotConfigured
| AuthenticationError (text : pystr)
| HTTPErrorAfterRetries (max_retries : Z) (status_code : Z)
| RequestErrorAfterRetries (max_retries : Z)
| UnexpectedLLMError
| NoResponseAfterRetries (max_retries : Z).

(** [range(n)]. *)
Definition range (n : Z) : list Z := map Z.of_nat (seq 0 (Z.to_nat n)).

Section make_request.
Variable Data : Type.
Variable max_retries : Z.
Variable method : Method.
(** The outcome of the request of each attempt. *)
Variable send : Z -> Outcome Data.

Definition and_then (events : list Event)
    (rest : list Event * result LLMManagerError Data)
    : list Event * result LLMManagerError Data :=
  (events ++ rest.1, rest.2).

(** The loop of lines 91-146 over the attempts that are left. *)
Fixpoint attempts (todo : list Z)
    : list Event * result LLMManagerError Data :=
  match todo with
  | [] => ([], Raise (NoResponseAfterRetries max_retries))
  | attempt :: todo' =>
    match method with
    | UnsupportedMethod => ([], Raise UnexpectedLLMError)
    | _ =>
      match send attempt with
      | Response response_data => ([Sent attempt], Ok response_data)
      | HTTPStatusError status_code text =>
        if (status_code =? 401)%Z || (status_code =? 403)%Z then
          ([Sent attempt], Raise (AuthenticationError text))
        else if (status_code =? 429)%Z then
          and_then [Sent attempt; Slept (RateLimitDelay (attempt + 1))]
                   (attempts todo')
        else if (attempt =? max_retries - 1)%Z then
          ([Sent attempt],
           Raise (HTTPErrorAfterRetries max_retries status_code))
        else
          and_then [Sent attempt; Slept (Seconds (1 * (attempt + 1)))]
                   (attempts todo')
      | RequestError =>
        if (attempt =? max_retries - 1)%Z then
          ([Sent attempt], Raise (RequestErrorAfterRetries max_retries))
        else
          and_then [Sent attempt; Slept (Seconds (1 * (attempt + 1)))]
                   (attempts todo')
      | OtherError => ([Sent attempt], Raise UnexpectedLLMError)
      end
    end
  end.

(** [_make_request], lines 74-150. *)
Definition _make_request (base_url : option pystr)
    : list Event * result LLMManagerError Data :=
  if negb (truthy base_url) then ([], Raise BaseUrlNotConfigured)
  else attempts (range max_retries).

End make_request.

(** The sleeps of a run, in order. *)
Definition sleeps (events : list Event) : list Delay :=
  omap (fun ev => match ev with Slept d => Some d | Sent _ => None end)
       events.

(** The requests of a run, in order. *)
Definition requests (events : list Event) : list Z :=
  omap (fun ev => match ev with Sent a => Some a | Slept _ => None end)
       events.

(** Exponential backoff as the specification words it: the wait doubles
    with every attempt, from one second. *)
Definition exponential_backoff (attempt : Z) : Delay :=
  Seconds (1 * 2 ^ attempt).

End LLMManager.

(** ** The summarizer: [ai_core/summarizer.py] *)

Module Summarizer.

Import LLMManager.

(** The [SummarizerError]s of [summarize_text], one per [raise] that can
    reach the caller: line 93, line 153, line 158.  The error of line 146
    is raised inside the [try] and leaves through line 158. *)
Inductive SummarizerError : Type :=
| TemplateMissingKey
| LLMInteractionFailed (e : LLMManagerError)
| UnexpectedError.

(** What leaves [summarize_text] when it raises: a [SummarizerError], or
    an exception of a [str.format] call that no handler catches. *)
Inductive Raised : Type :=
| Summarizer_Error (e : SummarizerError)
| Uncaught (e : PyExc).

(** The response of [generate_chat_completion] as lines 129-134 read it:
    [NoMessage] when the response, its [choices] or the [message] of the
    first choice is falsy; [Content c] when the message holds the string
    [c] (an absent [content] is the empty string); [Malformed] when
    reading it raises. *)
Inductive ChatResponse : Type :=
| NoMessage
| Content (content : pystr)
| Malformed.

Inductive ChatOutcome : Type :=
| ChatReturns (response : ChatResponse)
| ChatRaisesLLMManagerError (e : LLMManagerError)
| ChatRaises (e : PyExc).

(** The two messages of a chat completion request. *)
Record Messages : Type := mkMessages {
  system_prompt : pystr;
  user_prompt : pystr
}.

Definition newline : pystr := [10].
Definition placeholder : pystr := py "{text_to_summarize}".

Definition general_system_prompt : pystr :=
  py "You are an expert academic assistant specializing in concise and informative text summarization.".

Definition general_user_prompt : pystr :=
  py "Please summarize the following text in a few sentences: "
  ++ newline ++ newline ++ placeholder.

Definition key_findings_system_prompt : pystr :=
  py "You are an expert research analyst. Your task is to extract and summarize the key findings from the provided text.".

Definition key_findings_user_prompt : pystr :=
  py "Identify and summarize the key findings from this text in 2-4 bullet points or a short paragraph:"
  ++ newline ++ newline ++ placeholder.

Definition abstract_enhancement_system_prompt : pystr :=
  py "You are an AI assistant that refines and enhances academic abstracts to be more impactful and clear, focusing on core contributions and significance.".

Definition abstract_enhancement_user_prompt : pystr :=
  py "Enhance the following abstract. Make it concise (2-3 sentences), clear, and highlight its core contributions and significance. Abstract:"
  ++ newline ++ newline ++ placeholder.

Definition pystr_eqb (a b : pystr) : bool := bool_decide (a = b).

Section summarize_text.
(** [str.format] with keyword arguments. *)
Variable format : pystr -> list (pystr * pystr) -> result PyExc pystr.
(** [self.llm_manager.generate_chat_completion(messages=...)].  The token
    limit and the temperature, resolved at lines 63-82, are passed along
    and decide nothing here. *)
Variable generate_chat_completion : Messages -> ChatOutcome.

(** Lines 84-103: the prompts before the placeholder is filled. *)
Definition choose_prompts (text summary_type : pystr)
    (prompt_template context : option pystr)
    : result Raised Messages :=
  if truthy prompt_template then
    match
      format (default [] prompt_template)
             [(py "text_to_summarize", text);
              (py "context", if truthy context then default [] context
                             else [])]
    with
    | Ok user_prompt => Ok (mkMessages general_system_prompt user_prompt)
    | Raise e =>
      match exc_class e with
      | KeyError => Raise (Summarizer_Error TemplateMissingKey)
      | _ => Raise (Uncaught e)
      end
    end
  else if pystr_eqb summary_type (py "key_findings") then
    Ok (mkMessages key_findings_system_prompt key_findings_user_prompt)
  else if pystr_eqb summary_type (py "abstract_enhancement") then
    Ok (mkMessages abstract_enhancement_system_prompt
                   abstract_enhancement_user_prompt)
  else Ok (mkMessages general_system_prompt general_user_prompt).

(** Lines 106-107. *)
Definition fill_placeholder (text : pystr) (m : Messages)
    : result Raised Messages :=
  if contains placeholder (user_prompt m) then
    match format (user_prompt m) [(py "text_to_summarize", text)] with
    | Ok user_prompt => Ok (mkMessages (system_prompt m) user_prompt)
    | Raise e => Raise (Uncaught e)
    end
  else Ok m.

(** Lines 122-158. *)
Definition request_summary (messages : Messages) : result Raised pystr :=
  match generate_chat_completion messages with
  | ChatReturns (Content content) =>
    let summary := strip content in
    if negb (nonempty summary)
    then Ok (py "Summary generation resulted in empty content.")
    else Ok summary
  | ChatReturns NoMessage => Raise (Summarizer_Error UnexpectedError)
  | ChatReturns Malformed => Raise (Summarizer_Error UnexpectedError)
  | ChatRaisesLLMManagerError e =>
    Raise (Summarizer_Error (LLMInteractionFailed e))
  | ChatRaises _ => Raise (Summarizer_Error UnexpectedError)
  end.

(** [summarize_text], lines 32-158: the chat completion requests made, and
    the outcome. *)
Definition summarize_text (text summary_type : pystr)
    (prompt_template context : option pystr)
    : list Messages * result Raised pystr :=
  if negb (nonempty (strip text)) then ([], Ok [])
  else
    match choose_prompts text summary_type prompt_template context with
    | Raise e => ([], Raise e)
    | Ok m =>
      match fill_placeholder text m with
      | Raise e => ([], Raise e)
      | Ok messages => ([messages], request_summary messages)
      end
    end.

End summarize_text.

End Summarizer.

(** ** The AI processing stage: [agent.py], lines 479-547 *)

Module Analysis.





Section stage.
(** The exceptions ([Exception] and below) a call can raise. *)
Variable E : Type.
(** [text_processor.extract_research_keywords(text, max_keywords=10)]. *)
Variable extract_research_keywords : pystr -> result E (list pystr).
(** [summarizer.summarize_text(text=..., summary_type=...)] for the item at
    a position. *)
Variable summarize_text : nat -> pystr -> pystr -> result E pystr.










End stage.

End Analysis.

(** ** Example inputs *)

Module Examples.

Local Open Scope string_scope.

(** An arXiv item with a title, authors, a DOI and an arXiv id. *)
Definition item (t : string) (a : list string) (d x : option string)
    : LiteratureItem :=
  {| item_id := []; title := py t; authors := map py a;
     abstract := None; full_text := None; publication_date := None;
     doi := py <$> d; arxiv_id := py <$> x;
     url := None; pdf_url := None; source := py "arxiv" |}.

(** The two items of the specification's example: the same DOI up to
    case. *)
Definition paper_A : LiteratureItem := item "A" [] (Some "10.1/X") None.
Definition paper_B : LiteratureItem := item "B" [] (Some "10.1/x") None.

(** An item without a DOI whose arXiv id reads like the DOI of
    [paper_A]. *)
Definition paper_C : LiteratureItem := item "C" [] None (Some "10.1/x").

(** The same title, and a first author written in three ways. *)
Definition smith_dot : LiteratureItem :=
  item "Deep Learning" ["J. Smith"] None None.
Definition smith_plain : LiteratureItem :=
  item "Deep Learning" ["J Smith"] None None.
Definition smith_padded : LiteratureItem :=
  item "Deep Learning" [" J Smith"] None None.

(** An item without authors whose title is the letter a, [n] times. *)
Definition a_titled (n : nat) : LiteratureItem :=
  {| item_id := []; title := replicate n 97%N; authors := [];
     abstract := None; full_text := None; publication_date := None;
     doi := None; arxiv_id := None;
     url := None; pdf_url := None; source := py "arxiv" |}.

(** A hash to run the soft pass with. *)
Definition sum_hash (p : pystr * pystr) : Z :=
  Z.of_N (foldr N.add 0%N p.1 * 31 + foldr N.add 0%N p.2).

(** The query of the counterexample to the near-empty rule: two letters
    around a stopword. *)
Definition two_letters : pystr := py "a的b".

(** An arXiv client that never answers, and one that answers at once with
    no result; the results are of type [unit]. *)
Definition never_answers (request : ArxivClient.Search)
    : ArxivClient.Reply unit :=
  ArxivClient.mkReply unit None (Ok []).

Definition convert_unit (r : unit) : result PyExc LiteratureItem :=
  Ok (item "t" [] None None).



Definition with_full_text : LiteratureItem :=
  {| item_id := py "arxiv:2"; title := py "C"; authors := [];
     abstract := Some (py "An abstract."); full_text := Some (py "Body.");
     publication_date := None; doi := None; arxiv_id := None;
     url := None; pdf_url := None; source := py "arxiv" |}.



Definition failing_summarizer (i : nat) (text summary_type : pystr)
    : result PyExc pystr :=
  Raise (mkExc (OtherException (py "SummarizerError")) []).

(** A [str.format] that fills nothing in, and a chat completion that
    raises every time. *)
Definition plain_format (template : pystr) (kwargs : list (pystr * pystr))
    : result PyExc pystr :=
  Ok template.

Definition failing_chat (messages : Summarizer.Messages)
    : Summarizer.ChatOutcome :=
  Summarizer.ChatRaisesLLMManagerError
    (LLMManager.NoResponseAfterRetries 3).

(** An API that answers every attempt with HTTP 500. *)
Definition always_500 (attempt : Z) : LLMManager.Outcome unit :=
  LLMManager.HTTPStatusError 500 [].

End Examples.

(** ** More of Python's [str] *)

Module PyStrMore.

(** [s.split(sep)] for a separator of one character: the pieces between
    the occurrences of [sep], empty pieces included; never the empty
    list.  [cur] is the piece being read. *)
Fixpoint split_char_go (sep : N) (cur s : pystr) : list pystr :=
  match s with
  | [] => [cur]
  | c :: s' =>
    if c =? sep then cur :: split_char_go sep [] s'
    else split_char_go sep (cur ++ [c]) s'
  end.

Definition split_char (sep : N) (s : pystr) : list pystr :=
  split_char_go sep [] s.

(** [s.split(sep, 1)] for a separator of one character: cut at the first
    occurrence only. *)
Fixpoint split_once_go (sep : N) (cur s : pystr) : list pystr :=
  match s with
  | [] => [cur]
  | c :: s' =>
    if c =? sep then [cur; s'] else split_once_go sep (cur ++ [c]) s'
  end.

Definition split_once (sep : N) (s : pystr) : list pystr :=
  split_once_go sep [] s.

(** [l[i]] for an index that is not negative, and [l[-1]]: an index out
    of range raises [IndexError]. *)
Definition IndexError : PyExc :=
  mkExc (OtherException (py "IndexError")) (py "list index out of range").

Definition index {A : Type} (l : list A) (i : nat) : result PyExc A :=
  match l !! i with
  | Some x => Ok x
  | None => Raise IndexError
  end.

Definition index_last {A : Type} (l : list A) : result PyExc A :=
  match last l with
  | Some x => Ok x
  | None => Raise IndexError
  end.

(** [s.lstrip(chars)] and [s.rstrip(chars)] for one character. *)
Fixpoint lstrip_char (ch : N) (s : pystr) : pystr :=
  match s with
  | [] => []
  | c :: s' => if c =? ch then lstrip_char ch s' else s
  end.

Definition rstrip_char (ch : N) (s : pystr) : pystr :=
  reverse (lstrip_char ch (reverse s)).

End PyStrMore.

(** ** The retriever base class: [retrieval/base_retriever.py] *)

Module BaseRetriever.

Section search_multiple_queries.
(** The exceptions of [self.search], and [self.search(query,
    max_results_per_query)] itself, abstract in the base class. *)
Variable E : Type.
Variable search : pystr -> Z -> result E (list LiteratureItem).

(** The body of the inner loop, lines 164-166; the state is
    [(seen_ids, all_items)]. *)
Definition add_item (st : gset pystr * list LiteratureItem)
    (item : LiteratureItem) : gset pystr * list LiteratureItem :=
  let '(seen_ids, all_items) := st in
  if bool_decide (item_id item ∈ seen_ids) then st
  else ({[item_id item]} ∪ seen_ids, all_items ++ [item]).

(** The outer loop, lines 162-166, from a state: the queries that were
    searched, and the outcome. *)
Fixpoint queries_loop (max_results_per_query : Z) (queries : list pystr)
    (st : gset pystr * list LiteratureItem)
    : list pystr * result E (list LiteratureItem) :=
  match queries with
  | [] => ([], Ok st.2)
  | query :: queries' =>
    match search query max_results_per_query with
    | Raise e => ([query], Raise e)
    | Ok items =>
      let rest :=
        queries_loop max_results_per_query queries' (foldl add_item st items)
      in (query :: rest.1, rest.2)
    end
  end.

(** [search_multiple_queries], lines 145-168. *)
Definition search_multiple_queries (queries : list pystr)
    (max_results_per_query : Z)
    : list pystr * result E (list LiteratureItem) :=
  queries_loop max_results_per_query queries (∅, []).

End search_multiple_queries.

End BaseRetriever.

(** ** More of the arXiv retriever: [retrieval/arxiv_client.py] *)

Module ArxivResults.

Import PyStrMore.

(** The attributes of an [arxiv.Result] that [_convert_arxiv_result]
    copies into the fields of [LiteratureItem] modelled here; [published]
    holds the [isoformat()] text of the date. *)
Record ArxivResult : Type := mkResult {
  entry_id : pystr;
  result_title : pystr;
  result_authors : list pystr;
  summary : pystr;
  published : pystr;
  result_doi : option pystr;
  result_pdf_url : option pystr
}.

(** [_convert_arxiv_result], lines 306-355. *)
Definition _convert_arxiv_result (arxiv_result : ArxivResult)
    : result PyExc LiteratureItem :=
  match index_last (split_char 47 (entry_id arxiv_result)) with
  | Raise e => Raise e
  | Ok arxiv_id =>
    Ok {| item_id := py "arxiv:" ++ arxiv_id;
          title := result_title arxiv_result;
          authors := result_authors arxiv_result;
          abstract := Some (summary arxiv_result);
          full_text := None;
          publication_date := Some (published arxiv_result);
          doi := result_doi arxiv_result;
          arxiv_id := Some arxiv_id;
          url := Some (entry_id arxiv_result);
          pdf_url := result_pdf_url arxiv_result;
          source := py "arxiv" |}
  end.

Section methods.
(** [self.client.results(search)] as [search] uses it, and
    [self.max_results]. *)
Variable client_results : ArxivClient.Search -> ArxivClient.Reply ArxivResult.
Variable self_max_results : Z.
(** [search] with the conversion of this class. *)
Definition search (query : ArxivClient.pyval) (max_results : Z)
    : N * result PyExc (list LiteratureItem) :=
  ArxivClient.search ArxivResult _convert_arxiv_result client_results
    self_max_results query max_results.

(** [search_by_category], lines 244-259, and [search_by_author], lines
    261-276. *)
Definition search_by_category (category : pystr) (max_results : Z)
    : N * result PyExc (list LiteratureItem) :=
  search (ArxivClient.VStr (py "cat:" ++ category)) max_results.

Definition search_by_author (author : pystr) (max_results : Z)
    : N * result PyExc (list LiteratureItem) :=
  search (ArxivClient.VStr (py "au:" ++ author)) max_results.

End methods.

End ArxivResults.

(** ** More example inputs *)

Module Examples2.

Local Open Scope string_scope.

(** An item known by its [id] only. *)
Definition with_id (i : string) : LiteratureItem :=
  {| item_id := py i; title := py "T"; authors := [];
     abstract := None; full_text := None; publication_date := None;
     doi := None; arxiv_id := None;
     url := None; pdf_url := None; source := py "arxiv" |}.

(** A retriever that finds two items for every query, one of them the
    same for all queries; and one that fails on the query [bad]. *)
Definition two_hits (query : pystr) : list LiteratureItem :=
  [with_id "arxiv:1"; {| item_id := query; title := py "T"; authors := [];
     abstract := None; full_text := None; publication_date := None;
     doi := None; arxiv_id := None;
     url := None; pdf_url := None; source := py "arxiv" |}].

Definition finds_two (query : pystr) (max_results : Z)
    : result PyExc (list LiteratureItem) :=
  Ok (two_hits query).

Definition fails_on_bad (query : pystr) (max_results : Z)
    : result PyExc (list LiteratureItem) :=
  if bool_decide (query = py "bad")
  then Raise (mkExc Exception (py "ArXiv search failed: boom"))
  else Ok (two_hits query).

(** An arXiv result with an identifier of the old style. *)
Definition old_style : ArxivResults.ArxivResult :=
  {| ArxivResults.entry_id := py "http://arxiv.org/abs/hep-th/9901001v1";
     ArxivResults.result_title := py "T";
     ArxivResults.result_authors := [py "A"];
     ArxivResults.summary := py "S";
     ArxivResults.published := py "1999-01-01T00:00:00+00:00";
     ArxivResults.result_doi := None;
     ArxivResults.result_pdf_url := None |}.

(** A client that answers every search after one second with
    [old_style], and one that raises after one second. *)
Definition answers_one (request : ArxivClient.Search)
    : ArxivClient.Reply ArxivResults.ArxivResult :=
  ArxivClient.mkReply _ (Some 1000%N) (Ok [old_style]).

Definition api_down (request : ArxivClient.Search)
    : ArxivClient.Reply ArxivResults.ArxivResult :=
  ArxivClient.mkReply _ (Some 1000%N)
    (Raise (mkExc Exception (py "HTTP 503"))).

(** A client that answers the query [cat:cs.AI] like [answers_one] and
    is down for every other query. *)
Definition answers_category_only (request : ArxivClient.Search)
    : ArxivClient.Reply ArxivResults.ArxivResult :=
  match ArxivClient.search_query request with
  | ArxivClient.VStr s =>
    if bool_decide (s = py "cat:cs.AI") then answers_one request
    else api_down request
  | _ => api_down request
  end.

(** An item with a PDF link, a PDF processor that extracts a text from
    every link, and an arXiv search that finds the item twice and then
    another one. *)
Definition with_pdf : LiteratureItem :=
  {| item_id := py "arxiv:2401.00001v1"; title := py "Deep Learning";
     authors := [py "J Smith"];
     abstract := Some (py "An abstract."); full_text := None;
     publication_date := None; doi := None;
     arxiv_id := Some (py "2401.00001v1");
     url := None; pdf_url := Some (py "https://arxiv.org/pdf/2401.00001v1");
     source := py "arxiv" |}.




End Examples2.

(** ** The review pipeline: [agent.py], lines 262-565

    [conduct_literature_review] from the point where the topic is known:
    retrieval from arXiv, both deduplication stages, truncation, the
    optional full-text stage and the AI processing stage.  [sources] is
    the list that line 271 leaves. *)

Module Pipeline.







Section review.
Variable E : Type.
Variable lower : pystr -> pystr.
Variable isalnum : N -> bool.
Variable hash : pystr * pystr -> Z.
(** [self.arxiv_client.search(query=..., max_results=...)]. *)
Variable arxiv_search : pystr -> Z -> result E (list LiteratureItem).
(** [self.pdf_processor.extract_text_from_url(item.pdf_url)] for the item
    at a position. *)
Variable extract_text_from_url : nat -> pystr -> result E (option pystr).
Variable extract_research_keywords : pystr -> result E (list pystr).
Variable summarize_text : nat -> pystr -> pystr -> result E pystr.





End review.

End Pipeline.

(** ** Text completion and key findings: [ai_core/llm_manager.py], lines
    500-551, and [ai_core/summarizer.py], lines 160-204 *)

Module KeyFindings.

Import PyStrMore.

(** The messages of a chat completion request: role and content. *)
Definition ChatMessages : Type := list (pystr * pystr).

Definition key_findings_system_prompt : pystr :=
  py "You are an expert research analyst. Extract the key findings and insights from the provided research texts. Return 5-8 key findings as a numbered list.".

Definition key_findings_prompt_head : pystr :=
  py "Extract key findings from these research texts:" ++ [10; 10].

(** The separator of the combined text: two line feeds, three dashes, two
    line feeds. *)
Definition text_separator : pystr := [10; 10; 45; 45; 45; 10; 10].

Section key_findings.
(** [self.generate_chat_completion(messages=..., ...)], read as in
    [Summarizer]. *)
Variable generate_chat_completion : ChatMessages -> Summarizer.ChatOutcome.

(** [LLMManager.generate_completion], lines 500-551: the requests made
    and the text returned, [None] after any failure. *)
Definition generate_completion (prompt : pystr) (system_prompt : option pystr)
    : list ChatMessages * option pystr :=
  let messages :=
    (if truthy system_prompt
     then [(py "system", default [] system_prompt)] else [])
    ++ [(py "user", prompt)] in
  ([messages],
   match generate_chat_completion messages with
   | Summarizer.ChatReturns (Summarizer.Content content) =>
     Some (strip content)
   | Summarizer.ChatReturns Summarizer.NoMessage => None
   | Summarizer.ChatReturns Summarizer.Malformed => None
   | Summarizer.ChatRaisesLLMManagerError _ => None
   | Summarizer.ChatRaises _ => None
   end).

(** [line.startswith(('1.', '2.', ..., '8.'))]. *)
Definition numbered (line : pystr) : bool :=
  existsb (fun digit => startswith [digit; 46] line)
          [49; 50; 51; 52; 53; 54; 55; 56].

(** Lines 195-201 for one line of the response: the finding it gives, if
    any. *)
Definition finding_of (line : pystr) : result PyExc (option pystr) :=
  let line := strip line in
  if nonempty line && numbered line then
    match index (split_once 46 line) 1 with
    | Raise e => Raise e
    | Ok rest =>
      let finding := strip rest in
      if nonempty finding then Ok (Some finding) else Ok None
    end
  else Ok None.

(** The loop of line 195. *)
Fixpoint findings_loop (lines findings : list pystr)
    : result PyExc (list pystr) :=
  match lines with
  | [] => Ok findings
  | line :: lines' =>
    match finding_of line with
    | Raise e => Raise e
    | Ok (Some finding) => findings_loop lines' (findings ++ [finding])
    | Ok None => findings_loop lines' findings
    end
  end.

(** [Summarizer.generate_key_findings_summary], lines 160-204. *)
Definition generate_key_findings_summary (texts : list pystr)
    : list ChatMessages * result PyExc (list pystr) :=
  match texts with
  | [] => ([], Ok [])
  | _ :: _ =>
    let combined_text := join text_separator (take 10 texts) in
    let '(requests, response) :=
      generate_completion (key_findings_prompt_head ++ combined_text)
                          (Some key_findings_system_prompt) in
    if truthy response then
      match findings_loop (split_char 10 (default [] response)) [] with
      | Raise e => (requests, Raise e)
      | Ok findings => (requests, Ok (take 8 findings))
      end
    else (requests, Ok [])
  end.

End key_findings.

End KeyFindings.

(** ** Error handling utilities: [exceptions.py], lines 210-345 *)

Module ErrorHandler.

(** The built-in classes that [_convert_exception] tests for. *)
Inductive BuiltinClass : Type :=
| ValueError
| FileNotFoundError
| PermissionError
| ConnectionError
| TimeoutError.

#[global] Instance BuiltinClass_eq_dec : EqDecision BuiltinClass.
Proof. solve_decision. Defined.

(** The classes of [exceptions.py]; the ones that are not constructed
    here go by their name. *)
Inductive CustomClass : Type :=
| LiteratureReviewError
| ValidationError
| FileOperationError
| APIError
| OtherCustom (name : pystr).

Definition class_name (c : CustomClass) : pystr :=
  match c with
  | LiteratureReviewError => py "LiteratureReviewError"
  | ValidationError => py "ValidationError"
  | FileOperationError => py "FileOperationError"
  | APIError => py "APIError"
  | OtherCustom name => name
  end.

(** An exception that is not a [LiteratureReviewError]: the classes among
    the five that it is an instance of, and [str(exception)]. *)
Record Foreign : Type := mkForeign {
  classes : list BuiltinClass;
  text : pystr
}.

(** A [LiteratureReviewError]: its class, [message], [error_code],
    [details] as far as it is set here (the entry [operation]), and
    [original_exception]. *)
Record Custom : Type := mkCustom {
  error_type : CustomClass;
  message : pystr;
  error_code : pystr;
  operation : option pystr;
  original_exception : option Foreign
}.

(** An exception caught by [except Exception]. *)
Inductive Caught : Type :=
| IsCustom (c : Custom)
| IsForeign (e : Foreign).

(** What leaves the handler: a [LiteratureReviewError], or the
    [TypeError] of calling the built-in [TimeoutError] with keyword
    arguments, which it does not take. *)
Inductive Raised : Type :=
| RaiseCustom (c : Custom)
| RaiseTypeError.

(** A new exception of a class, built with [message=...] and
    [original_exception=...]; [error_code] defaults to the class name. *)
Definition make (c : CustomClass) (message : pystr) (operation : option pystr)
    (original : Foreign) : Custom :=
  mkCustom c message (class_name c) operation (Some original).

Definition isinstance (e : Foreign) (c : BuiltinClass) : bool :=
  bool_decide (c ∈ classes e).

(** [ErrorHandler._convert_exception], lines 243-270. *)
Definition _convert_exception (exception : Foreign) : result Raised Custom :=
  let error_message := text exception in
  if isinstance exception ValueError then
    Ok (make ValidationError error_message None exception)
  else if isinstance exception FileNotFoundError then
    Ok (make FileOperationError error_message (Some (py "read")) exception)
  else if isinstance exception PermissionError then
    Ok (make FileOperationError error_message
             (Some (py "permission_denied")) exception)
  else if isinstance exception ConnectionError then
    Ok (make APIError error_message None exception)
  else if isinstance exception TimeoutError then
    Raise RaiseTypeError
  else
    Ok (make LiteratureReviewError (py "Unexpected error: " ++ error_message)
             None exception).

(** [ErrorHandler.handle_exception], lines 213-241; logging left out. *)
Definition handle_exception (exception : Caught) (reraise : bool)
    : result Raised Custom :=
  match
    match exception with
    | IsCustom c => Ok c
    | IsForeign e => _convert_exception e
    end
  with
  | Raise r => Raise r
  | Ok custom_exception =>
    if reraise then Raise (RaiseCustom custom_exception)
    else Ok custom_exception
  end.

(** What a decorated function returns: the value of the function,
    [default_return], or the [None] of falling off the end of the
    wrapper. *)
Inductive Returned (A : Type) : Type :=
| Value (a : A)
| Default
| FallThrough.
Arguments Value {A} a.
Arguments Default {A}.
Arguments FallThrough {A}.

(** What leaves a decorated function: what the handler raises, or the
    [ModuleNotFoundError] of the import below. *)
Inductive WrapperRaised : Type :=
| FromHandler (r : Raised)
| ModuleNotFoundError.

(** [from .performance_monitor import get_performance_monitor], lines 289
    and 325.  The import is relative to the package [lit_review_agent],
    which has no module [performance_monitor]: the file of that name is
    [utils/performance_monitor.py].  So the import raises. *)
Definition import_performance_monitor : result WrapperRaised unit :=
  Raise ModuleNotFoundError.

(** The wrapper of [handle_errors] and of [handle_errors_async], lines
    285-313 and 321-348: whether the decorated function [func] is
    entered, and the outcome.  The import comes before the [try]; the
    records of the monitor, which need the import to succeed, are left
    out. *)
Definition wrapper {A : Type} (func : unit -> result Caught A)
    (reraise record_performance : bool)
    : bool * result WrapperRaised (Returned A) :=
  match
    if record_performance then import_performance_monitor else Ok tt
  with
  | Raise r => (false, Raise r)
  | Ok _ =>
    (true,
     match func tt with
     | Ok result => Ok (Value result)
     | Raise e =>
       if reraise then
         match handle_exception e true with
         | Raise r => Raise (FromHandler r)
         | Ok _ => Ok FallThrough
         end
       else
         match handle_exception e false with
         | Raise r => Raise (FromHandler r)
         | Ok _ => Ok Default
         end
     end)
  end.

End ErrorHandler.

(** ** Providers, requests and embeddings: [ai_core/llm_manager.py],
    lines 29-150 and 152-368 *)

Module LLMGateway.

Import PyStrMore.

(** The settings of [utils/config.py] that [LLMManager] reads. *)
Record Config : Type := mkConfig {
  llm_provider : pystr;
  llm_max_retries : Z;
  openai_api_key : option pystr;
  openai_api_base : option pystr;
  openai_model : pystr;
  openai_embedding_model : pystr;
  deepseek_api_key : option pystr;
  deepseek_api_base : option pystr;
  deepseek_model : pystr;
  ollama_api_base : option pystr;
  ollama_model : option pystr;
  ollama_embedding_model : option pystr;
  embedding_dimension_mock : Z
}.

(** The attributes of an [LLMManager] that requests depend on. *)
Record Manager : Type := mkManager {
  provider : pystr;
  api_key : option pystr;
  base_url : option pystr;
  model_name : option pystr
}.

(** [a or b] on an optional string. *)
Definition or_else (a : option pystr) (b : pystr) : option pystr :=
  if truthy a then a else Some b.

(** The [LLMManagerError]s of [_configure_provider], lines 51, 59, 72. *)
Inductive ConfigurationFailure : Type :=
| OpenAIKeyNotConfigured
| DeepSeekKeyNotConfigured
| UnsupportedProvider (provider : pystr).

(** [_configure_provider], lines 44-72, as run by [__init__]. *)
Definition _configure_provider (config : Config)
    : result ConfigurationFailure Manager :=
  let provider := llm_provider config in
  if bool_decide (provider = py "openai") then
    if truthy (openai_api_key config) then
      Ok (mkManager provider (openai_api_key config)
            (or_else (openai_api_base config) (py "https://api.openai.com/v1"))
            (Some (openai_model config)))
    else Raise OpenAIKeyNotConfigured
  else if bool_decide (provider = py "deepseek") then
    if truthy (deepseek_api_key config) then
      Ok (mkManager provider (deepseek_api_key config)
            (or_else (deepseek_api_base config)
                     (py "https://api.deepseek.com/v1"))
            (Some (deepseek_model config)))
    else Raise DeepSeekKeyNotConfigured
  else if bool_decide (provider = py "ollama") then
    Ok (mkManager provider None
          (or_else (ollama_api_base config) (py "http://localhost:11434/api"))
          (ollama_model config))
  else if bool_decide (provider = py "mock") then
    Ok (mkManager provider None None (Some (py "mock_model")))
  else Raise (UnsupportedProvider provider).

(** Line 84: the URL of a request. *)
Definition request_url (base_url endpoint : pystr) : pystr :=
  rstrip_char 47 base_url ++ [47] ++ lstrip_char 47 endpoint.

(** Lines 85-89: the token of the [Authorization] header, if the header
    is sent. *)
Definition bearer (m : Manager) : option pystr :=
  if truthy (api_key m) && negb (bool_decide (provider m = py "ollama"))
  then api_key m else None.

(** An HTTP request as [_make_request] sends it. *)
Record HttpRequest (Payload : Type) : Type := mkRequest {
  url : pystr;
  authorization : option pystr;
  payload : Payload
}.
Arguments mkRequest {Payload} url authorization payload.
Arguments url {Payload} h.
Arguments authorization {Payload} h.
Arguments payload {Payload} h.

Definition request_of {Payload : Type} (m : Manager) (endpoint : pystr)
    (p : Payload) : HttpRequest Payload :=
  mkRequest (request_url (default [] (base_url m)) endpoint) (bearer m) p.

(** The payload of an embedding request: [input] and [model] for the
    OpenAI API, [model] and [prompt] for Ollama. *)
Inductive EmbeddingPayload : Type :=
| InputModel (input : list pystr) (model : pystr)
| ModelPrompt (model : pystr) (prompt : pystr).

(** The [LLMManagerError]s of [generate_embedding], and what else can
    leave it. *)
Inductive EmbeddingFailure : Type :=
| RequestFailed (e : LLMManager.LLMManagerError)
| EmbeddingModelNotConfigured
| MissingEmbeddingKey
| UnexpectedEmbeddingFormat
| FallbackFailed
| DeepSeekHasNoEmbeddings
| NotImplementedFor (provider : pystr)
| UncaughtKeyError.

Section embedding.
(** An embedding vector. *)
Variable Vec : Type.
(** The vector [[0.01 * i for i in range(n)]] of the mock provider. *)
Variable mock_vector : Z -> Vec.

(** A response body as [generate_embedding] reads it: the value under
    [data] when that is a list, each entry with or without an
    [embedding]; and the value under [embedding]. *)
Record Body : Type := mkBody {
  data : option (list (option Vec));
  embedding : option Vec
}.

(** The transport: what sending a request leads to at each attempt. *)
Variable transport :
  HttpRequest EmbeddingPayload -> Z -> LLMManager.Outcome Body.
Variable config : Config.

(** One call of [_make_request]: the request, and what happened. *)
Definition Call : Type :=
  (HttpRequest EmbeddingPayload * list LLMManager.Event)%type.

Definition _make_request (m : Manager) (endpoint : pystr)
    (p : EmbeddingPayload)
    : Call * result LLMManager.LLMManagerError Body :=
  let request := request_of m endpoint p in
  let run :=
    LLMManager._make_request Body (llm_max_retries config) LLMManager.POST
      (transport request) (base_url m) in
  ((request, run.1), run.2).

(** [[item["embedding"] for item in response_data["data"]]]: a missing key
    raises [KeyError]. *)
Fixpoint embeddings_of (items : list (option Vec)) : option (list Vec) :=
  match items with
  | [] => Some []
  | None :: _ => None
  | Some v :: items' =>
    match embeddings_of items' with
    | Some vs => Some (v :: vs)
    | None => None
    end
  end.

(** The loop of lines 287-294 for Ollama, from the texts that are left. *)
Fixpoint ollama_loop (m : Manager) (model : pystr) (texts : list pystr)
    : list Call * result EmbeddingFailure (list Vec) :=
  match texts with
  | [] => ([], Ok [])
  | text :: texts' =>
    let '(call, outcome) :=
      _make_request m (py "embeddings") (ModelPrompt model text) in
    match outcome with
    | Raise e => ([call], Raise (RequestFailed e))
    | Ok response_data =>
      match embedding response_data with
      | None => ([call], Raise MissingEmbeddingKey)
      | Some v =>
        let rest := ollama_loop m model texts' in
        (call :: rest.1,
         match rest.2 with
         | Ok vs => Ok (v :: vs)
         | Raise e => Raise e
         end)
      end
    end
  end.

(** The three assignments that put the saved settings back, lines 321-323
    and again lines 338-340. *)
Definition restore (m : Manager) (temp_provider : pystr)
    (temp_api_key temp_base_url : option pystr) : Manager :=
  mkManager temp_provider temp_api_key temp_base_url (model_name m).

(** [generate_embedding], lines 235-368: the manager afterwards, the
    calls of [_make_request], and the outcome.  For DeepSeek with an
    OpenAI key the manager is switched to OpenAI for the request (lines
    306-312); a failure inside the [try] is handled at lines 336-343. *)
Definition generate_embedding (m : Manager) (input_texts : list pystr)
    (embedding_model : option pystr)
    : Manager * list Call * result EmbeddingFailure (list Vec) :=
  if bool_decide (provider m = py "mock") then
    (m, [],
     Ok (map (fun _ =>
                mock_vector (if (embedding_dimension_mock config =? 0)%Z
                             then 128%Z
                             else embedding_dimension_mock config))
             input_texts))
  else if bool_decide (provider m = py "openai") then
    let model_to_use :=
      default [] (or_else embedding_model (openai_embedding_model config)) in
    if negb (nonempty model_to_use) then
      (m, [], Raise EmbeddingModelNotConfigured)
    else
      let '(call, outcome) :=
        _make_request m (py "embeddings")
                      (InputModel input_texts model_to_use) in
      match outcome with
      | Raise e => (m, [call], Raise (RequestFailed e))
      | Ok response_data =>
        match data response_data with
        | None => (m, [call], Raise UnexpectedEmbeddingFormat)
        | Some items =>
          match embeddings_of items with
          | Some embeddings => (m, [call], Ok embeddings)
          | None => (m, [call], Raise UncaughtKeyError)
          end
        end
      end
  else if bool_decide (provider m = py "ollama") then
    let model_to_use :=
      if truthy embedding_model then embedding_model
      else ollama_embedding_model config in
    if negb (truthy model_to_use) then
      (m, [], Raise EmbeddingModelNotConfigured)
    else
      let run := ollama_loop m (default [] model_to_use) input_texts in
      (m, run.1, run.2)
  else if bool_decide (provider m = py "deepseek") then
    if truthy (openai_api_key config) then
      let temp_provider := provider m in
      let temp_api_key := api_key m in
      let temp_base_url := base_url m in
      let swapped :=
        mkManager (py "openai") (openai_api_key config)
                  (Some (py "https://api.openai.com/v1")) (model_name m) in
      let '(call, outcome) :=
        _make_request swapped (py "embeddings")
          (InputModel input_texts (openai_embedding_model config)) in
      match outcome with
      | Raise _ =>
        (restore swapped temp_provider temp_api_key temp_base_url, [call],
         Raise FallbackFailed)
      | Ok response_data =>
        let restored :=
          restore swapped temp_provider temp_api_key temp_base_url in
        match data response_data with
        | None =>
          (restore restored temp_provider temp_api_key temp_base_url,
           [call], Raise FallbackFailed)
        | Some items =>
          match embeddings_of items with
          | Some embeddings => (restored, [call], Ok embeddings)
          | None =>
            (restore restored temp_provider temp_api_key temp_base_url,
             [call], Raise FallbackFailed)
          end
        end
      end
    else (m, [], Raise DeepSeekHasNoEmbeddings)
  else (m, [], Raise (NotImplementedFor (provider m))).

End embedding.

(** The payload of a chat completion request, lines 190-219: the entries
    at the top level and the two that Ollama gets under [options]. *)
Record ChatPayload (Msgs T : Type) : Type := mkChatPayload {
  chat_model : pystr;
  chat_messages : Msgs;
  chat_temperature : option T;
  chat_max_tokens : option Z;
  chat_stream : option bool;
  options_num_predict : option Z;
  options_temperature : option T
}.
Arguments mkChatPayload {Msgs T}.

Inductive ChatFailure : Type :=
| ChatRequestFailed (e : LLMManager.LLMManagerError)
| ModelNameNotConfigured
| ChatNotImplementedFor (provider : pystr).

Section chat.
(** The messages, the temperature and the response body, and the response
    of the mock provider. *)
Variables Msgs T Data : Type.
Variable mock_response : Data.
Variable transport :
  HttpRequest (ChatPayload Msgs T) -> Z -> LLMManager.Outcome Data.
Variable config : Config.

(** [generate_chat_completion], lines 152-233: the call of
    [_make_request], if one is made, and the outcome. *)
Definition generate_chat_completion (m : Manager) (messages : Msgs)
    (max_tokens : option Z) (temperature : T) (stream : bool)
    : list (HttpRequest (ChatPayload Msgs T) * list LLMManager.Event)
      * result ChatFailure Data :=
  if bool_decide (provider m = py "mock") then ([], Ok mock_response)
  else if negb (truthy (model_name m)) then ([], Raise ModelNameNotConfigured)
  else
    let model := default [] (model_name m) in
    let request :=
      if bool_decide (provider m = py "openai")
         || bool_decide (provider m = py "deepseek") then
        Some (request_of m (py "chat/completions")
                (mkChatPayload model messages (Some temperature) max_tokens
                   (if stream then Some true else None) None None))
      else if bool_decide (provider m = py "ollama") then
        Some (request_of m (py "chat")
                (mkChatPayload model messages None None (Some stream)
                   max_tokens (Some temperature)))
      else None in
    match request with
    | None => ([], Raise (ChatNotImplementedFor (provider m)))
    | Some request =>
      let run :=
        LLMManager._make_request Data (llm_max_retries config)
          LLMManager.POST (transport request) (base_url m) in
      ([(request, run.1)],
       match run.2 with
       | Ok response_data => Ok response_data
       | Raise e => Raise (ChatRequestFailed e)
       end)
    end.

End chat.

End LLMGateway.

(** ** Example settings *)

Module Examples3.

(** DeepSeek for chat, with an OpenAI key for embeddings. *)
Definition deepseek_config : LLMGateway.Config :=
  {| LLMGateway.llm_provider := py "deepseek";
     LLMGateway.llm_max_retries := 3;
     LLMGateway.openai_api_key := Some (py "sk-openai");
     LLMGateway.openai_api_base := None;
     LLMGateway.openai_model := py "gpt-3.5-turbo";
     LLMGateway.openai_embedding_model := py "text-embedding-ada-002";
     LLMGateway.deepseek_api_key := Some (py "sk-deepseek");
     LLMGateway.deepseek_api_base := Some (py "https://api.deepseek.com/v1/");
     LLMGateway.deepseek_model := py "deepseek-chat";
     LLMGateway.ollama_api_base := Some (py "http://localhost:11434/api");
     LLMGateway.ollama_model := Some (py "llama3");
     LLMGateway.ollama_embedding_model := Some (py "nomic-embed-text");
     LLMGateway.embedding_dimension_mock := 128 |}.

(** The manager that [deepseek_config] gives. *)
Definition deepseek_manager : LLMGateway.Manager :=
  {| LLMGateway.provider := py "deepseek";
     LLMGateway.api_key := Some (py "sk-deepseek");
     LLMGateway.base_url := Some (py "https://api.deepseek.com/v1/");
     LLMGateway.model_name := Some (py "deepseek-chat") |}.

(** An embedding API that is down. *)
Definition embeddings_down
    (request : LLMGateway.HttpRequest LLMGateway.EmbeddingPayload)
    (attempt : Z) : LLMManager.Outcome (LLMGateway.Body (list Z)) :=
  LLMManager.RequestError.

(** A chat API that is down; messages, temperature and response body
    are of type [unit]. *)
Definition chat_down
    (request : LLMGateway.HttpRequest (LLMGateway.ChatPayload unit unit))
    (attempt : Z) : LLMManager.Outcome unit :=
  LLMManager.RequestError.

End Examples3.

(** ** Recent papers: [search_recent] and [filter_by_date] *)

Module Recent.

(** A naive [datetime], as [datetime.utcnow()] returns it: the date, and
    the time of day in microseconds. *)
Record datetime : Type := mkDatetime {
  year : Z;
  month : Z;
  day : Z;
  time_of_day : Z
}.

(** [_is_leap] and [_days_in_month] of the [datetime] module. *)
Definition _is_leap (y : Z) : bool :=
  (y mod 4 =? 0)%Z && (negb (y mod 100 =? 0)%Z || (y mod 400 =? 0)%Z).

Definition _days_in_month (y m : Z) : Z :=
  if (m =? 2)%Z && _is_leap y then 29%Z
  else default 0%Z
         ([-1; 31; 28; 31; 30; 31; 30; 31; 31; 30; 31; 30; 31]%Z
            !! Z.to_nat m).

(** What [search_recent] raises: the exception of [search], the
    [ValueError] of [replace] for a day that the month does not have, or
    the exception of a comparison of two dates. *)
Inductive Failure : Type :=
| SearchFailed (e : PyExc)
| DayOutOfRange (d : Z)
| ComparisonFailed (e : PyExc).

(** [d.replace(day=new_day)]: the constructor checks the day against the
    month. *)
Definition replace_day (d : datetime) (new_day : Z)
    : result Failure datetime :=
  if (1 <=? new_day)%Z && (new_day <=? _days_in_month (year d) (month d))%Z
  then Ok {| year := year d; month := month d; day := new_day;
             time_of_day := time_of_day d |}
  else Raise (DayOutOfRange new_day).

(** The text of a [datetime], as [isoformat()] writes it:
    [YYYY-MM-DDTHH:MM:SS], then [.ffffff] when the microseconds are not
    zero, then the offset from UTC, [+HH:MM] or [-HH:MM], when the
    [datetime] has a time zone. *)
Definition digit (c : N) : Z := (Z.of_N c - 48)%Z.

Definition number (s : pystr) : Z :=
  foldl (fun n c => (10 * n + digit c)%Z) 0%Z s.

Definition field (start len : nat) (s : pystr) : Z :=
  number (take len (drop start s)).

(** Whether the text has an offset: a sign after the time. *)
Definition has_tzinfo (s : pystr) : bool :=
  existsb (fun c => (c =? 43) || (c =? 45)) (drop 19 s).

(** The microseconds: six digits after a dot, when there is one. *)
Definition microsecond (s : pystr) : Z :=
  match drop 19 s with
  | c :: _ => if c =? 46 then field 20 6 s else 0%Z
  | [] => 0%Z
  end.

(** The [datetime] of a text without offset. *)
Definition naive_of (s : pystr) : datetime :=
  {| year := field 0 4 s;
     month := field 5 2 s;
     day := field 8 2 s;
     time_of_day :=
       (((field 11 2 s * 60 + field 14 2 s) * 60 + field 17 2 s) * 1000000
        + microsecond s)%Z |}.

(** [a < b] on two naive [datetime]s. *)
Definition naive_lt (a b : datetime) : bool :=
  (year a <? year b)%Z
  || ((year a =? year b)%Z
      && ((month a <? month b)%Z
          || ((month a =? month b)%Z
              && ((day a <? day b)%Z
                  || ((day a =? day b)%Z
                      && (time_of_day a <? time_of_day b)%Z))))).

(** The [TypeError] of comparing a [datetime] that has a time zone with
    one that has none. *)
Definition naive_and_aware : PyExc :=
  mkExc (OtherException (py "TypeError"))
        (py "can't compare offset-naive and offset-aware datetimes").

(** [published < d] and [published > d] for a publication date given by
    its text and a naive [d]. *)
Definition published_lt (published : pystr) (d : datetime)
    : result PyExc bool :=
  if has_tzinfo published then Raise naive_and_aware
  else Ok (naive_lt (naive_of published) d).

Definition published_gt (published : pystr) (d : datetime)
    : result PyExc bool :=
  if has_tzinfo published then Raise naive_and_aware
  else Ok (naive_lt d (naive_of published)).

Section filter_by_date.
(** [item.publication_date < start_date] and
    [item.publication_date > end_date], for a publication date given by
    its [isoformat()] text: comparing a [datetime] that has a time zone
    with one that has none raises [TypeError]. *)
Variable before : pystr -> datetime -> result PyExc bool.
Variable after : pystr -> datetime -> result PyExc bool.

(** The two tests of lines 193-197 on a publication date: whether the
    item is skipped. *)
Definition out_of_range (published : pystr)
    (start_date end_date : option datetime) : result PyExc bool :=
  match
    match start_date with
    | Some s => before published s
    | None => Ok false
    end
  with
  | Raise e => Raise e
  | Ok true => Ok true
  | Ok false =>
    match end_date with
    | Some e => after published e
    | None => Ok false
    end
  end.

(** [filter_by_date], [retrieval/base_retriever.py], lines 170-201. *)
Fixpoint filter_by_date (items : list LiteratureItem)
    (start_date end_date : option datetime)
    : result PyExc (list LiteratureItem) :=
  match items with
  | [] => Ok []
  | item :: items' =>
    match publication_date item with
    | None => filter_by_date items' start_date end_date
    | Some published =>
      match out_of_range published start_date end_date with
      | Raise e => Raise e
      | Ok true => filter_by_date items' start_date end_date
      | Ok false =>
        match filter_by_date items' start_date end_date with
        | Raise e => Raise e
        | Ok filtered => Ok (item :: filtered)
        end
      end
    end
  end.

End filter_by_date.

Section search_recent.
Variable client_results :
  ArxivClient.Search -> ArxivClient.Reply ArxivResults.ArxivResult.
Variable self_max_results : Z.
Variable before : pystr -> datetime -> result PyExc bool.
Variable after : pystr -> datetime -> result PyExc bool.
(** [datetime.utcnow()] at line 300. *)
Variable utcnow : datetime.

(** [search_recent], [retrieval/arxiv_client.py], lines 278-304: the
    time spent waiting for the search, and the outcome. *)
Definition search_recent (query : ArxivClient.pyval) (days : Z)
    (max_results : Z) : N * result Failure (list LiteratureItem) :=
  let expanded_results := (max_results * 3)%Z in
  let '(waited, searched) :=
    ArxivResults.search client_results self_max_results query
      expanded_results in
  match searched with
  | Raise e => (waited, Raise (SearchFailed e))
  | Ok all_items =>
    let cutoff_date := utcnow in
    match replace_day cutoff_date (day cutoff_date - days) with
    | Raise e => (waited, Raise e)
    | Ok cutoff_date =>
      match
        filter_by_date before after all_items (Some cutoff_date) None
      with
      | Raise e => (waited, Raise (ComparisonFailed e))
      | Ok recent_items =>
        (waited, Ok (Dedup.slice_to max_results recent_items))
      end
    end
  end.

End search_recent.

End Recent.

(** An arXiv client on the third of November 2026, and a comparison of
    dates that finds every publication date recent. *)
Module Examples4.

Local Open Scope string_scope.

Definition today : Recent.datetime :=
  Recent.mkDatetime 2026 11 3 0.

Definition all_recent (published : pystr) (d : Recent.datetime)
    : result PyExc bool :=
  Ok false.

(** An item whose publication date, the fourth of November 2026, has no
    time zone. *)
Definition dated_naive : LiteratureItem :=
  {| item_id := py "local:1"; title := py "T"; authors := [];
     abstract := None; full_text := None;
     publication_date := Some (py "2026-11-04T00:00:00");
     doi := None; arxiv_id := None;
     url := None; pdf_url := None; source := py "local" |}.

End Examples4.

(** ** The name of an exported file: [agent.py], [export_results] *)

Module ExportResults.

Section topic_safe.
(** [str.isalnum] on one code point. *)
Variable isalnum : N -> bool.

(** [c.isalnum() or c in (" ", "-", "_")], line 690. *)
Definition kept (c : N) : bool :=
  isalnum c || (c =? 32) || (c =? 45) || (c =? 95).

(** Lines 687-692: the part of the file name that comes from the topic;
    [topic] is [None] when [results] has no key [topic]. *)
Definition topic_safe (topic : option pystr) : pystr :=
  let topic_safe :=
    rstrip (filter (fun c => kept c) (default (py "review") topic)) in
  take 50 (replace [32] [95] topic_safe).

End topic_safe.

End ExportResults.

(** An Ollama manager, and an Ollama server that answers every request
    with the same vector. *)
Module Examples5.

Definition ollama_manager : LLMGateway.Manager :=
  {| LLMGateway.provider := py "ollama";
     LLMGateway.api_key := None;
     LLMGateway.base_url := Some (py "http://localhost:11434/api");
     LLMGateway.model_name := Some (py "llama3") |}.

Definition embeds
    (request : LLMGateway.HttpRequest LLMGateway.EmbeddingPayload)
    (attempt : Z) : LLMManager.Outcome (LLMGateway.Body (list Z)) :=
  LLMManager.Response (LLMGateway.mkBody (list Z) None (Some [1%Z])).

End Examples5.

(** * Properties *)

(** ** First-seen deduplication *)

Section first_seen_facts.
Context {A K : Type} {K_eq : EqDecision K} {K_count : Countable K}.
Variable key : A -> option K.

Lemma fresh_after_add (seen : gset K) k k' :
  k ≠ k' -> k ∉ seen -> k ∉ ({[k']} ∪ seen : gset K).
Proof. rewrite elem_of_union, elem_of_singleton. tauto. Qed.

Lemma seen_after_add (seen : gset K) k : k ∈ ({[k]} ∪ seen : gset K).
Proof. rewrite elem_of_union, elem_of_singleton. tauto. Qed.

Lemma first_seen_sublist seen l : sublist (first_seen key seen l) l.
Proof.
  revert seen; induction l as [|x l IH]; intros seen; simpl.
  - constructor.
  - destruct (key x) as [k|]; [destruct (decide (k ∈ seen))|].
    + by apply sublist_cons.
    + by apply sublist_skip.
    + by apply sublist_skip.
Qed.

(** An item whose key was seen before the list started is dropped. *)
Lemma first_seen_seen seen k l :
  k ∈ seen -> filter (fun x => key x = Some k) (first_seen key seen l) = [].
Proof.
  revert seen; induction l as [|x l IH]; intros seen Hk; simpl; [done|].
  destruct (key x) as [k'|] eqn:Hx; [destruct (decide (k' ∈ seen))|];
    rewrite ?filter_cons, ?Hx; repeat case_decide; simplify_eq;
    try done; apply IH; set_solver.
Qed.

(** Of the items that carry a key not seen before, the first one is kept
    and no other. *)
Lemma first_seen_with_key seen k l :
  k ∉ seen ->
  filter (fun x => key x = Some k) (first_seen key seen l)
  = take 1 (filter (fun x => key x = Some k) l).
Proof.
  revert seen; induction l as [|x l IH]; intros seen Hk; simpl; [done|].
  rewrite (filter_cons _ x l).
  destruct (key x) as [k'|] eqn:Hx; [destruct (decide (k' ∈ seen))|];
    rewrite ?filter_cons, ?Hx; repeat case_decide; simplify_eq;
    try done;
    try (apply IH; first [done|apply fresh_after_add; [congruence|done]]).
  simpl. f_equal. apply (first_seen_seen _ k), seen_after_add.
Qed.

(** Items on which a predicate holds that only keyless items satisfy are
    all kept. *)
Lemma first_seen_filter_keyless (P : A -> Prop)
    {Pdec : forall x, Decision (P x)} seen l :
  (forall x, P x -> key x = None) ->
  filter P (first_seen key seen l) = filter P l.
Proof.
  intros HP.
  revert seen; induction l as [|x l IH]; intros seen; simpl; [done|].
  rewrite (filter_cons _ x l).
  destruct (key x) as [k'|] eqn:Hx; [destruct (decide (k' ∈ seen))|];
    rewrite ?filter_cons; repeat case_decide; try done;
    try (f_equal; apply IH).
  all: pose proof (HP x ltac:(assumption)); congruence.
Qed.

Lemma first_seen_fresh seen l k :
  k ∈ keys key (first_seen key seen l) -> k ∉ seen.
Proof.
  unfold keys.
  revert seen; induction l as [|x l IH]; intros seen; simpl.
  - by intros ?%elem_of_nil.
  - destruct (key x) as [k'|] eqn:Hx.
    + destruct (decide (k' ∈ seen)) as [Hin|Hin]; [by apply IH|].
      simpl. rewrite Hx. intros [->|Hk]%elem_of_cons; [done|].
      apply IH in Hk. set_solver.
    + simpl. rewrite Hx. by apply IH.
Qed.

(** No key occurs twice in the output. *)
Lemma first_seen_NoDup seen l : NoDup (keys key (first_seen key seen l)).
Proof.
  unfold keys.
  revert seen; induction l as [|x l IH]; intros seen; simpl.
  - constructor.
  - destruct (key x) as [k'|] eqn:Hx.
    + destruct (decide (k' ∈ seen)) as [Hin|Hin]; [by apply IH|].
      simpl. rewrite Hx. constructor; [|by apply IH].
      intros Hk%first_seen_fresh. set_solver.
    + simpl. rewrite Hx. by apply IH.
Qed.

(** A list without a repeated or already seen key is left as it is. *)
Lemma first_seen_id seen l :
  NoDup (keys key l) -> (forall k, k ∈ keys key l -> k ∉ seen) ->
  first_seen key seen l = l.
Proof.
  unfold keys.
  revert seen; induction l as [|x l IH]; intros seen Hnd Hfresh; simpl;
    [done|].
  simpl in Hnd, Hfresh. destruct (key x) as [k'|] eqn:Hx.
  - apply NoDup_cons in Hnd as [Hk' Hnd].
    destruct (decide (k' ∈ seen)) as [Hin|Hin].
    + exfalso. apply (Hfresh k'); [left|done].
    + f_equal. apply IH; [done|].
      intros k Hk.
      apply fresh_after_add; [by intros ->|].
      apply Hfresh, elem_of_cons; by right.
  - f_equal. by apply IH.
Qed.

Lemma keys_sublist l1 l2 :
  sublist l1 l2 -> sublist (keys key l1) (keys key l2).
Proof.
  unfold keys. induction 1 as [|x l1 l2 _ IH|x l1 l2 _ IH]; simpl.
  - constructor.
  - destruct (key x); [by apply sublist_skip|done].
  - destruct (key x); [by apply sublist_cons|done].
Qed.

Lemma first_seen_idemp l :
  first_seen key ∅ (first_seen key ∅ l) = first_seen key ∅ l.
Proof.
  apply first_seen_id; [apply first_seen_NoDup|]. set_solver.
Qed.

End first_seen_facts.

(** ** Deduplication *)

Section dedup_loops.
Variable lower : pystr -> pystr.
Variable isalnum : N -> bool.
Variable hash : pystr * pystr -> Z.

(** The loop of stage 1 is [first_seen] on [id_key]. *)
Lemma strong_loop seen out l :
  (foldl (Dedup.strong_step lower) (seen, out) l).2
  = out ++ first_seen (Dedup.id_key lower) seen l.
Proof.
  revert seen out; induction l as [|x l IH]; intros seen out;
    cbn [foldl first_seen].
  - by rewrite app_nil_r.
  - unfold Dedup.id_key at 1. unfold Dedup.strong_step at 2.
    destruct (Dedup.unique_id lower x) as [u|];
      [destruct (nonempty u); simpl|].
    + destruct (decide (u ∈ seen)) as [Hin|Hin].
      * rewrite bool_decide_eq_true_2 by done. apply IH.
      * rewrite bool_decide_eq_false_2 by done.
        rewrite IH. by rewrite <- app_assoc.
    + rewrite IH. by rewrite <- app_assoc.
    + rewrite IH. by rewrite <- app_assoc.
Qed.

Lemma strong_pass_first_seen l :
  Dedup.strong_pass lower l = first_seen (Dedup.id_key lower) ∅ l.
Proof. unfold Dedup.strong_pass. by rewrite strong_loop. Qed.

(** The loop of stage 2 is [first_seen] on [title_author_key]. *)
Lemma soft_loop seen out l :
  (foldl (Dedup.soft_step lower isalnum hash) (seen, out) l).2
  = out ++ first_seen
             (fun x => Some (Dedup.title_author_key lower isalnum hash x))
             seen l.
Proof.
  revert seen out; induction l as [|x l IH]; intros seen out;
    cbn [foldl first_seen].
  - by rewrite app_nil_r.
  - unfold Dedup.soft_step at 2.
    destruct (decide (Dedup.title_author_key lower isalnum hash x ∈ seen))
      as [Hin|Hin].
    + rewrite bool_decide_eq_true_2 by done. apply IH.
    + rewrite bool_decide_eq_false_2 by done.
      rewrite IH. by rewrite <- app_assoc.
Qed.

Lemma soft_pass_first_seen l :
  Dedup.soft_pass lower isalnum hash l
  = first_seen (fun x => Some (Dedup.title_author_key lower isalnum hash x))
               ∅ l.
Proof. unfold Dedup.soft_pass. by rewrite soft_loop. Qed.

Lemma strong_pass_sublist l : sublist (Dedup.strong_pass lower l) l.
Proof. rewrite strong_pass_first_seen. apply first_seen_sublist. Qed.

Lemma soft_pass_sublist l :
  sublist (Dedup.soft_pass lower isalnum hash l) l.
Proof. rewrite soft_pass_first_seen. apply first_seen_sublist. Qed.

Lemma deduplicate_sublist l :
  sublist (Dedup.deduplicate lower isalnum hash l) l.
Proof.
  unfold Dedup.deduplicate.
  etrans; [apply soft_pass_sublist|apply strong_pass_sublist].
Qed.

(** An item that has neither a DOI nor an arXiv id has no [id_key]. *)
Lemma id_key_absent x :
  truthy (doi x) = false /\ truthy (arxiv_id x) = false ->
  Dedup.id_key lower x = None.
Proof.
  intros [Hd Ha]. unfold Dedup.id_key, Dedup.unique_id.
  by rewrite Hd, Ha.
Qed.

End dedup_loops.

(** The identifier of stage 1, spelled out: the lowercased DOI of an item
    that has a DOI, the lowercased arXiv id of an item that has an arXiv
    id and no DOI. *)
Lemma id_key_spelled_out (lower : pystr -> pystr) (x : LiteratureItem)
    (c : N) (k : pystr) :
  Dedup.id_key lower x = Some (c :: k) <->
  (truthy (doi x) = true /\ lower <$> doi x = Some (c :: k))
  \/ (truthy (doi x) = false /\ truthy (arxiv_id x) = true
      /\ lower <$> arxiv_id x = Some (c :: k)).
Proof.
  unfold Dedup.id_key, Dedup.unique_id.
  destruct (truthy (doi x)) eqn:Hd.
  - destruct (lower <$> doi x) as [[|c' k']|]; split;
      try done; try (by left);
      intros [[_ H]|[H _]]; done.
  - destruct (truthy (arxiv_id x)) eqn:Ha.
    + destruct (lower <$> arxiv_id x) as [[|c' k']|]; split;
        try done; try (by right);
        intros [[H _]|[_ [_ H]]]; done.
    + split; [done|]. intros [[H _]|[_ [H _]]]; done.
Qed.

(** C1, as the code has it.  The output of stage 1 is a subsequence of
    its input.  The identifier of an item is its lowercased DOI when it
    has a DOI, and its lowercased arXiv id when it has an arXiv id and no
    DOI; both kinds are looked up in the same set.  Of the items with the
    same identifier, of either kind, the first one of the input survives
    and no other; every item with neither a DOI nor an arXiv id
    survives.  On the two items of the example, whose DOIs differ in case
    only, the item titled A alone is retained, by stage 1 and by both
    stages together. *)
Theorem strong_pass_keeps_first_seen :
  (forall (lower : pystr -> pystr) (items : list LiteratureItem),
     sublist (Dedup.strong_pass lower items) items
     /\ (forall (c : N) (k : pystr),
           filter
             (fun x =>
                (truthy (doi x) = true /\ lower <$> doi x = Some (c :: k))
                \/ (truthy (doi x) = false /\ truthy (arxiv_id x) = true
                    /\ lower <$> arxiv_id x = Some (c :: k)))
             (Dedup.strong_pass lower items)
           = take 1
               (filter
                  (fun x =>
                     (truthy (doi x) = true
                      /\ lower <$> doi x = Some (c :: k))
                     \/ (truthy (doi x) = false
                         /\ truthy (arxiv_id x) = true
                         /\ lower <$> arxiv_id x = Some (c :: k)))
                  items))
     /\ filter (fun x => truthy (doi x) = false
                         /\ truthy (arxiv_id x) = false)
               (Dedup.strong_pass lower items)
        = filter (fun x => truthy (doi x) = false
                           /\ truthy (arxiv_id x) = false) items)
  /\ Dedup.strong_pass ascii_lower [Examples.paper_A; Examples.paper_B]
     = [Examples.paper_A]
  /\ (forall hash : pystr * pystr -> Z,
        Dedup.deduplicate ascii_lower ascii_isalnum hash
          [Examples.paper_A; Examples.paper_B]
        = [Examples.paper_A]).
Proof.
  split; [|split].
  - intros lower items. split; [apply strong_pass_sublist|].
    rewrite strong_pass_first_seen. split.
    + intros c k.
      etrans;
        [apply (list_filter_iff _
                  (fun x => Dedup.id_key lower x = Some (c :: k)));
         intros x; symmetry; apply id_key_spelled_out|].
      etrans; [apply first_seen_with_key; set_solver|].
      f_equal. apply list_filter_iff. intros x. apply id_key_spelled_out.
    + apply first_seen_filter_keyless. apply id_key_absent.
  - by vm_compute.
  - intros hash. unfold Dedup.deduplicate.
    replace (Dedup.strong_pass ascii_lower
               [Examples.paper_A; Examples.paper_B])
      with [Examples.paper_A] by (by vm_compute).
    rewrite soft_pass_first_seen. cbn [first_seen].
    by destruct (decide _) as [Hin|_]; [set_solver|].
Qed.

(** C1 as the specification words it fails.  An item without a DOI whose
    arXiv id is [10.1/x] comes first; the item that follows is the only
    one of the input with a DOI, [10.1/X], and so the first of the items
    with its DOI: stage 1 drops it all the same, since the two
    identifiers meet in one set, while a pass that keeps the first item
    per DOI and per arXiv id keeps both. *)
Lemma strong_pass_mixes_identifiers :
  Dedup.strong_pass ascii_lower [Examples.paper_C; Examples.paper_A]
  = [Examples.paper_C]
  /\ Dedup.strong_pass_spec ascii_lower [Examples.paper_C; Examples.paper_A]
     = [Examples.paper_C; Examples.paper_A]
  /\ filter (fun x => truthy (doi x) = true)
       [Examples.paper_C; Examples.paper_A]
     = [Examples.paper_A].
Proof. split; [|split]; by vm_compute. Qed.

(** A list that is not free of duplicates has an element at two
    positions. *)
Lemma repeated_element {A : Type} `{EqDecision A} (l : list A) :
  ~ NoDup l ->
  exists i j x, (i < j)%nat /\ l !! i = Some x /\ l !! j = Some x.
Proof.
  induction l as [|x l IH]; intros Hnd; [by destruct Hnd; constructor|].
  destruct (decide (x ∈ l)) as [Hin|Hin].
  - apply list_elem_of_lookup_1 in Hin as [j Hj].
    exists O, (S j), x. split; [lia|]. by split.
  - destruct IH as (i & j & y & Hij & Hi & Hj).
    { intros Hl. apply Hnd. by constructor. }
    exists (S i), (S j), y. split; [lia|]. by split.
Qed.

(** A function from the natural numbers into [n] integers takes some
    value twice. *)
Lemma pigeonhole (f : nat -> Z) (lo n : Z) :
  (0 <= n)%Z ->
  (forall i, (lo <= f i < lo + n)%Z) ->
  exists i j, (i < j)%nat /\ f i = f j.
Proof.
  intros Hn Hrange.
  remember (Z.to_nat n) as m eqn:Hm.
  destruct (repeated_element (f <$> seq 0 (S m)))
    as (i & j & x & Hij & Hi & Hj).
  - intros Hnd.
    assert (Hsub : f <$> seq 0 (S m) ⊆ seqZ lo n).
    { intros y (i & -> & _)%list_elem_of_fmap. apply elem_of_seqZ.
      apply Hrange. }
    apply (NoDup_submseteq _ (seqZ lo n)) in Hnd; [|done].
    apply submseteq_length in Hnd.
    rewrite length_fmap, length_seq, length_seqZ in Hnd. lia.
  - exists i, j. split; [done|].
    apply list_lookup_fmap_Some in Hi as (a & -> & Ha).
    apply list_lookup_fmap_Some in Hj as (b & Hx & Hb).
    apply lookup_seq in Ha as [-> _]. apply lookup_seq in Hb as [-> _].
    exact Hx.
Qed.

(** The pair that stage 2 hashes for [a_titled n]. *)
Lemma a_titled_pair (n : nat) :
  Dedup.title_author_pair ascii_lower ascii_isalnum (Examples.a_titled n)
  = (replicate n 97, py "unknown_author").
Proof.
  unfold Dedup.title_author_pair, Dedup.norm_title, Dedup.first_author_norm.
  cbn [title authors Examples.a_titled]. f_equal.
  assert (Hlower : ascii_lower (replicate n 97) = replicate n 97).
  { induction n as [|n IH]; [done|].
    unfold ascii_lower in *. cbn [replicate map]. by rewrite IH. }
  assert (Hfilter : filter (fun e => ascii_isalnum e || isspace e)
                      (replicate n 97)
                    = replicate n 97).
  { clear Hlower. induction n as [|n IH]; [done|].
    cbn [replicate]. rewrite filter_cons_True by done. by rewrite IH. }
  rewrite Hlower. etrans; [exact (f_equal strip Hfilter)|].
  unfold strip, rstrip.
  assert (Hl : forall m, lstrip (replicate m 97) = replicate m 97)
    by (by intros [|m]).
  by rewrite Hl, reverse_replicate, Hl, reverse_replicate.
Qed.

(** C3, as the code has it.  The output of stage 2 is a subsequence of
    its input.  The key of an item is the hash of a pair: its title,
    lowercased, stripped of the characters that are neither alphanumeric
    nor whitespace and then trimmed; and its first author, lowercased and
    trimmed only, or [unknown_author] when it has no author.  Two items
    collide exactly when their keys are equal: of the items with the
    same key the first one of the input survives and no other.  So of
    the items that agree on the pair, none survives but the first item
    of the input with the hash of that pair, and at most one does. *)
Theorem soft_pass_keeps_first_seen :
  forall (lower : pystr -> pystr) (isalnum : N -> bool)
         (hash : pystr * pystr -> Z) (items : list LiteratureItem),
    let norm_title (x : LiteratureItem) : pystr :=
      strip (filter (fun e => isalnum e || isspace e) (lower (title x))) in
    let first_author_norm (x : LiteratureItem) : pystr :=
      match authors x with
      | a :: _ => strip (lower a)
      | [] => py "unknown_author"
      end in
    sublist (Dedup.soft_pass lower isalnum hash items) items
    /\ (forall h : Z,
          filter (fun x => hash (norm_title x, first_author_norm x) = h)
                 (Dedup.soft_pass lower isalnum hash items)
          = take 1
              (filter
                 (fun x => hash (norm_title x, first_author_norm x) = h)
                 items))
    /\ (forall t a : pystr,
          filter (fun x => norm_title x = t /\ first_author_norm x = a)
                 (Dedup.soft_pass lower isalnum hash items)
          = filter (fun x => norm_title x = t /\ first_author_norm x = a)
              (take 1
                 (filter
                    (fun x =>
                       hash (norm_title x, first_author_norm x)
                       = hash (t, a))
                    items))
          /\ (length
                (filter
                   (fun x => norm_title x = t /\ first_author_norm x = a)
                   (Dedup.soft_pass lower isalnum hash items))
              <= 1)%nat).
Proof.
  intros lower isalnum hash items norm_title first_author_norm.
  assert (Hkey : forall h : Z,
    filter (fun x => hash (norm_title x, first_author_norm x) = h)
           (Dedup.soft_pass lower isalnum hash items)
    = take 1
        (filter (fun x => hash (norm_title x, first_author_norm x) = h)
                items)).
  { intros h. rewrite soft_pass_first_seen.
    rewrite (list_filter_iff _
      (fun x => Some (Dedup.title_author_key lower isalnum hash x) = Some h))
      by (intros x; split; [intros <-; reflexivity|by intros [= <-]]).
    rewrite (list_filter_iff _
      (fun x => Some (Dedup.title_author_key lower isalnum hash x) = Some h)
      items)
      by (intros x; split; [intros <-; reflexivity|by intros [= <-]]).
    apply first_seen_with_key. set_solver. }
  split; [apply soft_pass_sublist|]. split; [exact Hkey|].
  intros t a.
  assert (Hpair :
    filter (fun x => norm_title x = t /\ first_author_norm x = a)
           (Dedup.soft_pass lower isalnum hash items)
    = filter (fun x => norm_title x = t /\ first_author_norm x = a)
        (take 1
           (filter
              (fun x => hash (norm_title x, first_author_norm x)
                        = hash (t, a))
              items))).
  { rewrite <- Hkey. rewrite list_filter_filter.
    apply list_filter_iff. intros x.
    split; [intros [-> ->]; by split|intros [Hp _]; exact Hp]. }
  split; [exact Hpair|]. rewrite Hpair.
  etrans; [apply length_filter|]. rewrite length_take. lia.
Qed.

(** C3 as the specification words it fails.  Two items with the same
    title whose first authors differ by a leading space only collide in
    the code whatever the hash, since the author is trimmed, while their
    normalised strings differ; and the normalised strings of J. Smith and
    J Smith agree, while the code hashes two different pairs for them,
    since it leaves the punctuation of an author in place.  And items
    collide on the hash of the pair, not on the pair: whatever the hash
    with values of 64 bits, two items that differ in their normalised
    titles have the same hash, and the second one is dropped. *)
Lemma soft_pass_not_as_specified :
  (forall hash : pystr * pystr -> Z,
     Dedup.soft_pass ascii_lower ascii_isalnum hash
       [Examples.smith_plain; Examples.smith_padded]
     = [Examples.smith_plain])
  /\ Dedup.soft_pass_spec ascii_lower ascii_isalnum
       [Examples.smith_plain; Examples.smith_padded]
     = [Examples.smith_plain; Examples.smith_padded]
  /\ Dedup.spec_pair ascii_lower ascii_isalnum Examples.smith_dot
     = Dedup.spec_pair ascii_lower ascii_isalnum Examples.smith_plain
  /\ Dedup.title_author_pair ascii_lower ascii_isalnum Examples.smith_dot
     <> Dedup.title_author_pair ascii_lower ascii_isalnum
          Examples.smith_plain
  /\ (forall hash : pystr * pystr -> Z,
        (forall p, (- 2 ^ 63 <= hash p < 2 ^ 63)%Z) ->
        exists i j : nat,
          Dedup.title_author_pair ascii_lower ascii_isalnum
            (Examples.a_titled i)
          <> Dedup.title_author_pair ascii_lower ascii_isalnum
               (Examples.a_titled j)
          /\ Dedup.soft_pass ascii_lower ascii_isalnum hash
               [Examples.a_titled i; Examples.a_titled j]
             = [Examples.a_titled i]).
Proof.
  split; [|split; [|split; [|split]]].
  - intros hash. rewrite soft_pass_first_seen. cbn [first_seen].
    destruct (decide _) as [Hin|_]; [set_solver|].
    replace (Dedup.title_author_key ascii_lower ascii_isalnum hash
               Examples.smith_padded)
      with (Dedup.title_author_key ascii_lower ascii_isalnum hash
              Examples.smith_plain)
      by (unfold Dedup.title_author_key; f_equal; by vm_compute).
    by destruct (decide _) as [_|Hout]; [|set_solver].
  - by vm_compute.
  - by vm_compute.
  - by vm_compute.
  - intros hash Hrange.
    destruct (pigeonhole
                (fun n => hash (replicate n 97, py "unknown_author"))
                (- 2 ^ 63) (2 ^ 64)) as (i & j & Hij & Hhash).
    { lia. }
    { intros n. specialize (Hrange (replicate n 97, py "unknown_author")).
      lia. }
    exists i, j. split.
    + rewrite !a_titled_pair. intros [= Heq].
      apply (f_equal length) in Heq. rewrite !length_replicate in Heq. lia.
    + rewrite soft_pass_first_seen. cbn [first_seen].
      destruct (decide _) as [Hin|_];
        [by apply not_elem_of_empty in Hin|].
      unfold Dedup.title_author_key. rewrite !a_titled_pair.
      cbv beta in Hhash. rewrite <- Hhash.
      destruct (decide _) as [_|Hout]; [done|].
      exfalso. apply Hout. by apply elem_of_union_l, elem_of_singleton.
Qed.

(** C4. Deduplication is idempotent: running both stages on their own
    output gives that output again, the same items in the same order. *)
Theorem deduplicate_idempotent :
  forall (lower : pystr -> pystr) (isalnum : N -> bool)
         (hash : pystr * pystr -> Z) (items : list LiteratureItem),
    Dedup.deduplicate lower isalnum hash
      (Dedup.deduplicate lower isalnum hash items)
    = Dedup.deduplicate lower isalnum hash items.
Proof.
  intros lower isalnum hash items. unfold Dedup.deduplicate.
  set (once := Dedup.soft_pass lower isalnum hash
                 (Dedup.strong_pass lower items)).
  assert (Hstrong : Dedup.strong_pass lower once = once).
  { rewrite strong_pass_first_seen. apply first_seen_id; [|set_solver].
    apply (sublist_NoDup _
             (keys (Dedup.id_key lower) (Dedup.strong_pass lower items))).
    - rewrite strong_pass_first_seen. apply first_seen_NoDup.
    - apply keys_sublist. apply soft_pass_sublist. }
  rewrite Hstrong. unfold once.
  rewrite !soft_pass_first_seen. apply first_seen_idemp.
Qed.

Lemma slice_to_nonneg (n : Z) (l : list LiteratureItem) :
  (0 <= n)%Z -> Dedup.slice_to n l = take (Z.to_nat n) l.
Proof.
  intros Hn. unfold Dedup.slice_to.
  by rewrite (proj2 (Z.leb_le 0 n) Hn).
Qed.

Lemma truncate_nonneg (max_papers : Z) (l : list LiteratureItem) :
  (0 <= max_papers)%Z ->
  Dedup.truncate max_papers l = take (Z.to_nat max_papers) l.
Proof.
  intros Hn. unfold Dedup.truncate.
  destruct (Z.ltb_spec max_papers (Z.of_nat (length l))) as [Hlt|Hge].
  - by apply slice_to_nonneg.
  - symmetry. apply take_ge. lia.
Qed.

(** C5. Order and truncation.  The items that both stages retain are a
    subsequence of the input.  For a limit [max_papers] that is not
    negative, the result is the first [max_papers] of them in that order,
    all of them when there are no more than [max_papers]: nothing is
    re-ranked, and the result is a subsequence of the input as well. *)
Theorem dedup_keeps_order_and_truncates :
  forall (lower : pystr -> pystr) (isalnum : N -> bool)
         (hash : pystr * pystr -> Z) (max_papers : Z)
         (items : list LiteratureItem),
    (0 <= max_papers)%Z ->
    sublist (Dedup.deduplicate lower isalnum hash items) items
    /\ Dedup.dedup_and_truncate lower isalnum hash max_papers items
       = take (Z.to_nat max_papers)
              (Dedup.deduplicate lower isalnum hash items)
    /\ length (Dedup.dedup_and_truncate lower isalnum hash max_papers items)
       = Nat.min (Z.to_nat max_papers)
                 (length (Dedup.deduplicate lower isalnum hash items))
    /\ sublist (Dedup.dedup_and_truncate lower isalnum hash max_papers items)
               items.
Proof.
  intros lower isalnum hash max_papers items Hn.
  assert (Heq : Dedup.dedup_and_truncate lower isalnum hash max_papers items
                = take (Z.to_nat max_papers)
                       (Dedup.deduplicate lower isalnum hash items))
    by (by apply truncate_nonneg).
  split; [apply deduplicate_sublist|]. split; [exact Heq|].
  rewrite Heq. split; [apply length_take|].
  etrans; [apply sublist_take|apply deduplicate_sublist].
Qed.

(** C5 at a limit of one on three items, two of which are one paper. *)
Lemma dedup_keeps_order_and_truncates_witness :
  (0 <= 1)%Z
  /\ Dedup.dedup_and_truncate ascii_lower ascii_isalnum Examples.sum_hash 1
       [Examples.paper_A; Examples.paper_B; Examples.smith_dot]
     = take 1 (Dedup.deduplicate ascii_lower ascii_isalnum Examples.sum_hash
                 [Examples.paper_A; Examples.paper_B; Examples.smith_dot]).
Proof.
  split; [lia|].
  apply (dedup_keeps_order_and_truncates ascii_lower ascii_isalnum
           Examples.sum_hash 1
           [Examples.paper_A; Examples.paper_B; Examples.smith_dot]).
  lia.
Defined.

(** ** Python strings *)

Section pystr_facts.

Lemma lstrip_clean s : starts_clean s -> lstrip s = s.
Proof. destruct s as [|c s]; simpl; [done|]. by intros ->. Qed.

Lemma strip_clean s :
  starts_clean s -> starts_clean (reverse s) -> strip s = s.
Proof.
  intros Hs Hr. unfold strip, rstrip.
  rewrite (lstrip_clean s Hs), (lstrip_clean _ Hr).
  apply reverse_involutive.
Qed.

Lemma lstrip_blank s : forallb isspace s = true -> lstrip s = [].
Proof.
  induction s as [|c s IH]; simpl; [done|].
  intros [Hc Hs]%andb_true_iff. rewrite Hc. by apply IH.
Qed.

(** [text.strip()] is empty for a text of whitespace only. *)
Lemma strip_blank s : forallb isspace s = true -> strip s = [].
Proof. intros Hs. unfold strip. by rewrite (lstrip_blank s Hs). Qed.

Lemma lstrip_nil_blank s : lstrip s = [] -> forallb isspace s = true.
Proof.
  induction s as [|c s IH]; simpl; [done|].
  destruct (isspace c); [exact IH|done].
Qed.

(** ... and for no other text. *)
Lemma strip_nil_blank s : strip s = [] -> forallb isspace s = true.
Proof.
  unfold strip, rstrip. intros Hs.
  apply (f_equal reverse) in Hs. rewrite reverse_involutive in Hs.
  change (reverse []) with (@nil N) in Hs.
  apply lstrip_nil_blank in Hs.
  assert (Hl : lstrip s = []).
  { destruct (lstrip s) as [|c t] eqn:El; [done|].
    assert (Hc : isspace c = false).
    { clear Hs. induction s as [|d s IH]; simpl in El; [done|].
      destruct (isspace d) eqn:Ed; [by apply IH|]. by simplify_eq. }
    rewrite reverse_cons, forallb_app in Hs.
    apply andb_true_iff in Hs as [_ Hs]. simpl in Hs.
    by rewrite Hc in Hs. }
  by apply lstrip_nil_blank.
Qed.

Lemma split_go_words cur s :
  Forall (fun c => isspace c = false) cur ->
  Forall is_word (split_go cur s).
Proof.
  revert cur; induction s as [|c s IH]; intros cur Hcur; simpl.
  - destruct cur as [|d cur]; [constructor|].
    constructor; [by split|constructor].
  - destruct (isspace c) eqn:Hc.
    + destruct cur as [|d cur]; [by apply IH|].
      constructor; [by split|]. by apply IH.
    + apply IH. apply Forall_app. split; [done|]. by repeat constructor.
Qed.

Lemma split_words s : Forall is_word (split s).
Proof. by apply split_go_words. Qed.

Lemma join_words_clean sep ws :
  Forall is_word ws -> starts_clean (join sep ws).
Proof.
  destruct 1 as [|w ws [Hne Hw] Hws]; simpl; [done|].
  destruct w as [|c w]; [done|]. apply Forall_cons in Hw as [Hc _].
  by destruct ws.
Qed.

Lemma join_words_nonempty sep ws :
  Forall is_word ws -> ws <> [] -> join sep ws <> [].
Proof.
  destruct 1 as [|w ws [Hne Hw] Hws]; [done|]. intros _. simpl.
  destruct w as [|c w]; [done|]. by destruct ws.
Qed.

Lemma word_reverse_clean w : is_word w -> starts_clean (reverse w).
Proof.
  intros [Hne Hw]. destruct (reverse w) as [|c t] eqn:Er; simpl; [done|].
  apply (Forall_forall (fun c => isspace c = false) w); [done|].
  apply elem_of_reverse. rewrite Er. left.
Qed.

Lemma join_words_reverse_clean sep ws :
  Forall is_word ws -> starts_clean (reverse (join sep ws)).
Proof.
  induction 1 as [|w ws Hw Hws IH]; [done|].
  destruct ws as [|w' ws]; [by apply word_reverse_clean|].
  change (join sep (w :: w' :: ws)) with (w ++ sep ++ join sep (w' :: ws)).
  rewrite !reverse_app.
  pose proof (join_words_nonempty sep (w' :: ws) Hws ltac:(done)) as Hne.
  destruct (reverse (join sep (w' :: ws))) as [|c t] eqn:Er; [|exact IH].
  apply (f_equal reverse) in Er. by rewrite reverse_involutive in Er.
Qed.

(** A query squeezed by [" ".join(q.split())] has no whitespace at either
    end: stripping it changes nothing. *)
Lemma strip_join_split s : strip (join (py " ") (split s)) = join (py " ") (split s).
Proof.
  apply strip_clean.
  - apply join_words_clean, split_words.
  - apply join_words_reverse_clean, split_words.
Qed.

End pystr_facts.

(** ** The arXiv retriever *)

Lemma or_default_squeezed (q : pystr) :
  ArxivClient.or_default (ArxivClient.squeeze q)
  = if (length (ArxivClient.squeeze q) <? 3)%nat
    then py "machine learning" else ArxivClient.squeeze q.
Proof.
  unfold ArxivClient.or_default, ArxivClient.squeeze.
  rewrite strip_join_split.
  destruct (join (py " ") (split q)) as [|c t]; [done|]. by simpl.
Qed.

Lemma has_chinese_nonempty (q : pystr) :
  ArxivClient.has_chinese q = true -> nonempty q = true.
Proof. by destruct q. Qed.

(** C6, as the code has it.  A query with a character in U+4E00..U+9FFF
    is rewritten before it is dispatched: the keyword table is applied,
    the stopwords are blanked and the whitespace is squeezed; when what
    is left has fewer than three characters, single inner spaces counted,
    the query is [machine learning]; so the dispatched query has three
    characters at least.  The query of the example is dispatched as
    [deep learning]. *)
Theorem chinese_query_is_translated :
  (forall (self_max_results max_results : Z) (q : pystr),
     ArxivClient.has_chinese q = true ->
     let t := ArxivClient.squeeze
                (ArxivClient.remove_stopwords (ArxivClient.apply_table q)) in
     let sent := if (length t <? 3)%nat then py "machine learning" else t in
     ArxivClient.search_query
       (ArxivClient.search_request self_max_results (ArxivClient.VStr q)
                                   max_results)
     = ArxivClient.VStr sent
     /\ (3 <= length sent)%nat)
  /\ (forall self_max_results max_results : Z,
        ArxivClient.search_query
          (ArxivClient.search_request self_max_results
             (ArxivClient.VStr (py "深度学习")) max_results)
        = ArxivClient.VStr (py "deep learning")).
Proof.
  split.
  - intros smr mr q Hq t sent. split.
    + unfold ArxivClient.search_request. cbn [ArxivClient.search_query].
      unfold ArxivClient.translate_chinese_query.
      rewrite (has_chinese_nonempty q Hq), Hq. cbn [negb].
      by rewrite or_default_squeezed.
    + subst sent. destruct (length t <? 3)%nat eqn:Hlen.
      * vm_compute. lia.
      * by apply Nat.ltb_ge.
  - intros smr mr. by vm_compute.
Qed.

(** C6 on a query of Chinese keywords around a stopword. *)
Lemma chinese_query_is_translated_witness :
  ArxivClient.has_chinese (py "深度学习的应用") = true
  /\ ArxivClient.search_query
       (ArxivClient.search_request 100
          (ArxivClient.VStr (py "深度学习的应用")) 10)
     = ArxivClient.VStr (py "deep learning application").
Proof.
  split; [reflexivity|].
  exact (proj1 (proj1 chinese_query_is_translated 100%Z 10%Z
                  (py "深度学习的应用") eq_refl)).
Defined.

(** C6 as the specification words it fails: the query of two letters
    around a stopword comes out with two non-space characters, fewer
    than three, and is dispatched as it is, not as [machine learning]. *)
Lemma near_empty_query_is_dispatched :
  ArxivClient.has_chinese Examples.two_letters = true
  /\ ArxivClient.translate_chinese_query (ArxivClient.VStr Examples.two_letters)
     = ArxivClient.VStr (py "a b")
  /\ ArxivClient.non_space_count (py "a b") = 2%nat
  /\ ArxivClient.VStr (py "a b") <> ArxivClient.VStr (py "machine learning").
Proof. repeat split; by vm_compute. Qed.

Lemma no_chinese (s : pystr) :
  Forall (fun c => (c < 19968 \/ 40959 < c)%N) s ->
  ArxivClient.has_chinese s = false.
Proof.
  induction 1 as [|c s Hc _ IH]; [done|].
  unfold ArxivClient.has_chinese in *. cbn [existsb]. rewrite IH.
  unfold ArxivClient.is_chinese.
  destruct (N.leb_spec 19968 c), (N.leb_spec c 40959); simpl; try done; lia.
Qed.

(** C9. [translate_chinese_query] is the identity on every argument that
    is not a string, on the empty string, and on every string without a
    character in U+4E00..U+9FFF. *)
Theorem translate_identity_without_chinese :
  forall query : ArxivClient.pyval,
    match query with
    | ArxivClient.VStr s => Forall (fun c => (c < 19968 \/ 40959 < c)%N) s
    | _ => True
    end ->
    ArxivClient.translate_chinese_query query = query.
Proof.
  intros [s| | |] Hq; simpl; try done.
  rewrite (no_chinese s Hq). by destruct (nonempty s).
Qed.

(** C9 on a Latin-script query. *)
Lemma translate_identity_without_chinese_witness :
  Forall (fun c => (c < 19968 \/ 40959 < c)%N) (py "deep learning")
  /\ ArxivClient.translate_chinese_query (ArxivClient.VStr (py "deep learning"))
     = ArxivClient.VStr (py "deep learning").
Proof.
  assert (H : Forall (fun c => (c < 19968 \/ 40959 < c)%N)
                     (py "deep learning"))
    by (repeat constructor; lia).
  split; [exact H|].
  exact (translate_identity_without_chinese
           (ArxivClient.VStr (py "deep learning")) H).
Defined.

(** C8, as the code has it.  [search] waits for the executor for 45
    seconds at most; when the executor has not finished by then, [search]
    raises a plain [Exception] whose text says that the search timed out
    after 45 seconds. *)
Theorem search_wait_is_bounded :
  forall (ArxivResult : Type)
         (_convert_arxiv_result : ArxivResult -> result PyExc LiteratureItem)
         (client_results : ArxivClient.Search -> ArxivClient.Reply ArxivResult)
         (self_max_results : Z) (query : ArxivClient.pyval) (max_results : Z),
    let request :=
      ArxivClient.search_request self_max_results query max_results in
    let run :=
      ArxivClient.search ArxivResult _convert_arxiv_result client_results
        self_max_results query max_results in
    (run.1 <= 1000 * 45)%N
    /\ (ArxivClient.in_time
          (ArxivClient.finishes_after ArxivResult (client_results request))
          45 = false ->
        run = (45000%N,
               Raise (mkExc Exception
                        (py "ArXiv search timed out after 45 seconds")))).
Proof.
  intros R conv client smr query mr request run.
  subst run. unfold ArxivClient.search. fold request.
  unfold ArxivClient.wait_for, ArxivClient.search_timeout.
  destruct (ArxivClient.in_time _ 45) eqn:Hin.
  - split; [|done].
    unfold ArxivClient.in_time in Hin.
    destruct (ArxivClient.finishes_after R (client request)) as [t|];
      [|done].
    apply N.leb_le in Hin.
    by destruct (ArxivClient.convert_all R conv _).
  - split; [done|]. by intros _.
Qed.

(** C8 on a client that never answers. *)
Lemma search_wait_is_bounded_witness :
  ArxivClient.in_time
    (ArxivClient.finishes_after unit
       (Examples.never_answers
          (ArxivClient.search_request 100
             (ArxivClient.VStr (py "deep learning")) 10)))
    45 = false
  /\ ArxivClient.search unit Examples.convert_unit Examples.never_answers 100
       (ArxivClient.VStr (py "deep learning")) 10
     = (45000%N,
        Raise (mkExc Exception
                 (py "ArXiv search timed out after 45 seconds"))).
Proof.
  split; [reflexivity|].
  apply (search_wait_is_bounded unit Examples.convert_unit
           Examples.never_answers 100%Z
           (ArxivClient.VStr (py "deep learning")) 10%Z).
  reflexivity.
Defined.

(** C8 as the specification words it fails: on a client that never
    answers, what [search] raises after 45 seconds is of class
    [Exception], not [OperationTimeoutError]. *)
Lemma search_timeout_is_untyped :
  (ArxivClient.search unit Examples.convert_unit Examples.never_answers 100
     (ArxivClient.VStr (py "deep learning")) 10).2
  = Raise (mkExc Exception (py "ArXiv search timed out after 45 seconds"))
  /\ exc_class (mkExc Exception
                  (py "ArXiv search timed out after 45 seconds"))
     <> OperationTimeoutError.
Proof. split; by vm_compute. Qed.

(** ** The LLM request layer *)

Section make_request_facts.
Variable Data : Type.
Variable max_retries : Z.
Variable send : Z -> LLMManager.Outcome Data.

(** HTTP 401 and 403 end the call at once: no sleep, no further
    request. *)
Lemma auth_error_is_not_retried attempt todo status_code text :
  send attempt = LLMManager.HTTPStatusError status_code text ->
  status_code = 401%Z \/ status_code = 403%Z ->
  LLMManager.attempts Data max_retries LLMManager.POST send (attempt :: todo)
  = ([LLMManager.Sent attempt],
     Raise (LLMManager.AuthenticationError text)).
Proof.
  intros Hsend Hcode. cbn [LLMManager.attempts]. rewrite Hsend.
  by destruct Hcode as [-> | ->].
Qed.

(** HTTP 429 is followed by a sleep of the rate-limit delay times the
    number of the attempt, counted from one, and then by the attempts
    that are left. *)
Lemma rate_limit_waits attempt todo text :
  send attempt = LLMManager.HTTPStatusError 429 text ->
  LLMManager.attempts Data max_retries LLMManager.POST send (attempt :: todo)
  = LLMManager.and_then Data
      [LLMManager.Sent attempt;
       LLMManager.Slept (LLMManager.RateLimitDelay (attempt + 1))]
      (LLMManager.attempts Data max_retries LLMManager.POST send todo).
Proof. intros Hsend. cbn [LLMManager.attempts]. by rewrite Hsend. Qed.

(** Any other HTTP error, before the last attempt, is followed by a sleep
    of as many seconds as the number of the attempt, counted from one. *)
Lemma http_error_waits attempt todo status_code text :
  send attempt = LLMManager.HTTPStatusError status_code text ->
  status_code <> 401%Z -> status_code <> 403%Z -> status_code <> 429%Z ->
  attempt <> (max_retries - 1)%Z ->
  LLMManager.attempts Data max_retries LLMManager.POST send (attempt :: todo)
  = LLMManager.and_then Data
      [LLMManager.Sent attempt;
       LLMManager.Slept (LLMManager.Seconds (attempt + 1))]
      (LLMManager.attempts Data max_retries LLMManager.POST send todo).
Proof.
  intros Hsend H401 H403 H429 Hlast. cbn [LLMManager.attempts].
  rewrite Hsend.
  rewrite (proj2 (Z.eqb_neq _ _) H401), (proj2 (Z.eqb_neq _ _) H403),
    (proj2 (Z.eqb_neq _ _) H429), (proj2 (Z.eqb_neq _ _) Hlast).
  cbn [orb]. by rewrite Z.mul_1_l.
Qed.

(** No more requests are sent than attempts are left. *)
Lemma requests_bounded method todo :
  (length (LLMManager.requests
             (LLMManager.attempts Data max_retries method send todo).1)
   <= length todo)%nat.
Proof.
  induction todo as [|attempt todo IH]; [done|].
  cbn [LLMManager.attempts length].
  destruct method; [| |simpl; lia];
    (destruct (send attempt) as [d|code text| |]; [simpl; lia| |
       |simpl; lia];
     repeat (match goal with |- context [if ?b then _ else _] =>
               destruct b end);
     try (simpl; lia);
     unfold LLMManager.and_then; cbn [fst];
     unfold LLMManager.requests in *; simpl; simpl in IH; lia).
Qed.

End make_request_facts.

(** C2 on the failing input: with four attempts allowed and HTTP 500 on
    every attempt, four requests are sent and the sleeps between them are
    of 1, 2 and 3 seconds, where exponential backoff waits 1, 2 and 4. *)
Theorem generic_backoff_is_linear :
  let run :=
    LLMManager._make_request unit 4 LLMManager.POST Examples.always_500
      (Some (py "https://api.deepseek.com/v1")) in
  LLMManager.requests run.1 = [0; 1; 2; 3]%Z
  /\ LLMManager.sleeps run.1
     = [LLMManager.Seconds 1; LLMManager.Seconds 2; LLMManager.Seconds 3]
  /\ map LLMManager.exponential_backoff [0; 1; 2]%Z
     = [LLMManager.Seconds 1; LLMManager.Seconds 2; LLMManager.Seconds 4]
  /\ run.2 = Raise (LLMManager.HTTPErrorAfterRetries 4 500).
Proof. repeat split. Qed.

(** ** The summarizer *)

(** C10. For a text of whitespace only, the empty text included,
    [summarize_text] returns the empty string, makes no chat completion
    request and does not raise; so whenever it raises, the text has a
    character that is not whitespace. *)
Theorem blank_text_is_not_summarized :
  forall (format : pystr -> list (pystr * pystr) -> result PyExc pystr)
         (generate_chat_completion :
            Summarizer.Messages -> Summarizer.ChatOutcome)
         (text summary_type : pystr) (prompt_template context : option pystr),
    (forallb isspace text = true ->
     Summarizer.summarize_text format generate_chat_completion
       text summary_type prompt_template context
     = ([], Ok []))
    /\ (forall (calls : list Summarizer.Messages) (e : Summarizer.Raised),
          Summarizer.summarize_text format generate_chat_completion
            text summary_type prompt_template context
          = (calls, Raise e) ->
          forallb isspace text = false).
Proof.
  intros format chat text summary_type prompt_template context. split.
  - intros Hblank. unfold Summarizer.summarize_text.
    by rewrite (strip_blank text Hblank).
  - intros calls e. unfold Summarizer.summarize_text.
    destruct (nonempty (strip text)) eqn:Hne; cbn [negb]; [|done].
    intros _. destruct (forallb isspace text) eqn:Hblank; [|done].
    by rewrite (strip_blank text Hblank) in Hne.
Qed.

(** C10 on a text of two spaces and a line feed, with a chat completion
    that would raise. *)
Lemma blank_text_is_not_summarized_witness :
  forallb isspace [32; 32; 10] = true
  /\ Summarizer.summarize_text Examples.plain_format Examples.failing_chat
       [32; 32; 10] (py "abstract_enhancement") None None
     = ([], Ok []).
Proof.
  split; [reflexivity|].
  apply (blank_text_is_not_summarized Examples.plain_format
           Examples.failing_chat [32; 32; 10] (py "abstract_enhancement")
           None None).
  reflexivity.
Defined.

(** ** The AI processing stage *)

Section stage_facts.
Variable E : Type.
Variable extract_research_keywords : pystr -> result E (list pystr).
Variable summarize_text : nat -> pystr -> pystr -> result E pystr.



End stage_facts.



(** * More of the code *)

(** ** First-seen deduplication, continued *)

Section first_seen_more.
Context {A K : Type} {K_eq : EqDecision K} {K_count : Countable K}.
Variable key : A -> option K.

Lemma keys_cons_Some x k l :
  key x = Some k -> keys key (x :: l) = k :: keys key l.
Proof. unfold keys. simpl. by intros ->. Qed.

Lemma keys_cons_None x l : key x = None -> keys key (x :: l) = keys key l.
Proof. unfold keys. simpl. by intros ->. Qed.

(** After a list has gone through, its keys are seen. *)
Lemma first_seen_app seen l1 l2 :
  first_seen key seen (l1 ++ l2)
  = first_seen key seen l1
    ++ first_seen key (list_to_set (keys key l1) ∪ seen) l2.
Proof.
  revert seen; induction l1 as [|x l1 IH]; intros seen.
  - cbn [app first_seen]. f_equal.
    apply set_eq. intros y. rewrite elem_of_union.
    unfold keys. simpl. rewrite elem_of_empty. tauto.
  - cbn [app first_seen]. destruct (key x) as [k|] eqn:Hx.
    + rewrite (keys_cons_Some x k l1 Hx), list_to_set_cons.
      destruct (decide (k ∈ seen)) as [Hin|Hin].
      * rewrite IH. f_equal. f_equal.
        apply set_eq. intros y.
        rewrite !elem_of_union, elem_of_singleton.
        split; intros Hy; repeat (destruct Hy as [Hy|Hy]); subst; tauto.
      * cbn [app]. rewrite IH. f_equal. f_equal. f_equal.
        apply set_eq. intros y.
        rewrite !elem_of_union, elem_of_singleton. tauto.
    + rewrite (keys_cons_None x l1 Hx). cbn [app]. by rewrite IH.
Qed.

End first_seen_more.

(** ** The retriever base class *)

Section search_multiple_queries_facts.
Variable E : Type.
Variable search : pystr -> Z -> result E (list LiteratureItem).

Lemma keys_item_id (items : list LiteratureItem) :
  keys (fun x => Some (item_id x)) items = item_id <$> items.
Proof.
  unfold keys. induction items as [|x items IH]; simpl; [done|].
  by f_equal.
Qed.

(** The inner loop is [first_seen] on the [id], and leaves the ids of all
    the items it went through in [seen_ids]. *)
Lemma add_items seen out items :
  foldl BaseRetriever.add_item (seen, out) items
  = (list_to_set (item_id <$> items) ∪ seen,
     out ++ first_seen (fun x => Some (item_id x)) seen items).
Proof.
  revert seen out; induction items as [|x items IH]; intros seen out.
  - cbn [foldl first_seen fmap list_fmap list_to_set].
    rewrite app_nil_r. f_equal.
    apply set_eq. intros y. rewrite elem_of_union, elem_of_empty. tauto.
  - cbn [foldl first_seen]. unfold BaseRetriever.add_item at 2.
    rewrite fmap_cons, list_to_set_cons.
    destruct (decide (item_id x ∈ seen)) as [Hin|Hin].
    + rewrite bool_decide_eq_true_2 by done. rewrite IH. f_equal.
      apply set_eq. intros y.
      rewrite !elem_of_union, elem_of_singleton.
      split; intros Hy; repeat (destruct Hy as [Hy|Hy]); subst; tauto.
    + rewrite bool_decide_eq_false_2 by done. rewrite IH.
      rewrite <- app_assoc. f_equal.
      apply set_eq. intros y.
      rewrite !elem_of_union, elem_of_singleton. tauto.
Qed.

Lemma queries_loop_ok max_results queries
    (results : pystr -> list LiteratureItem) seen out :
  (forall q, q ∈ queries -> search q max_results = Ok (results q)) ->
  BaseRetriever.queries_loop E search max_results queries (seen, out)
  = (queries,
     Ok (out ++ first_seen (fun x => Some (item_id x)) seen
                  (mjoin (results <$> queries)))).
Proof.
  revert seen out; induction queries as [|q queries IH];
    intros seen out Hok.
  - simpl. by rewrite app_nil_r.
  - cbn [BaseRetriever.queries_loop].
    rewrite (Hok q) by left. rewrite add_items.
    rewrite IH by (intros q' Hq'; apply Hok; by right).
    cbn [fst snd fmap list_fmap mjoin list_join].
    rewrite first_seen_app, keys_item_id.
    by rewrite <- app_assoc.
Qed.

End search_multiple_queries_facts.

(** X1. When every query is searched without an exception,
    [search_multiple_queries] searches all of them in order and returns
    the items found, in the order found, without the items whose [id] was
    found before: no [id] occurs twice, and for every [id] found the
    first item found with it is kept and no other. *)
Theorem search_multiple_queries_first_seen :
  forall (E : Type) (search : pystr -> Z -> result E (list LiteratureItem))
         (results : pystr -> list LiteratureItem)
         (queries : list pystr) (max_results_per_query : Z),
    (forall q, q ∈ queries ->
               search q max_results_per_query = Ok (results q)) ->
    exists all_items : list LiteratureItem,
      BaseRetriever.search_multiple_queries E search queries
        max_results_per_query
      = (queries, Ok all_items)
      /\ sublist all_items (mjoin (results <$> queries))
      /\ NoDup (item_id <$> all_items)
      /\ (forall i : pystr,
            filter (fun x => item_id x = i) all_items
            = take 1 (filter (fun x => item_id x = i)
                             (mjoin (results <$> queries)))).
Proof.
  intros E search results queries max Hok.
  exists (first_seen (fun x => Some (item_id x)) ∅
            (mjoin (results <$> queries))).
  split; [|split; [|split]].
  - unfold BaseRetriever.search_multiple_queries.
    by rewrite (queries_loop_ok E search max queries results ∅ [] Hok).
  - apply first_seen_sublist.
  - rewrite <- keys_item_id. apply first_seen_NoDup.
  - intros i.
    rewrite (list_filter_iff _ (fun x => Some (item_id x) = Some i))
      by (intros x; split; congruence).
    rewrite (list_filter_iff _ (fun x => Some (item_id x) = Some i) (mjoin _))
      by (intros x; split; congruence).
    apply first_seen_with_key. apply not_elem_of_empty.
Qed.

(** X1 on two queries that share a hit. *)
Lemma search_multiple_queries_first_seen_witness :
  exists all_items : list LiteratureItem,
    BaseRetriever.search_multiple_queries PyExc Examples2.finds_two
      [py "a"; py "b"] 10
    = ([py "a"; py "b"], Ok all_items)
    /\ NoDup (item_id <$> all_items).
Proof.
  destruct (search_multiple_queries_first_seen PyExc Examples2.finds_two
              Examples2.two_hits [py "a"; py "b"] 10%Z)
    as (all_items & Hrun & _ & Hnodup & _).
  - intros q _. reflexivity.
  - exists all_items. by split.
Defined.

(** X2. [search_multiple_queries] fails with the exception of the first
    query whose search fails: the queries after it are not searched, and
    the items found before it are not returned. *)
Theorem search_multiple_queries_fails_fast :
  forall (E : Type) (search : pystr -> Z -> result E (list LiteratureItem))
         (results : pystr -> list LiteratureItem)
         (before after : list pystr) (query : pystr) (e : E)
         (max_results_per_query : Z),
    (forall q, q ∈ before ->
               search q max_results_per_query = Ok (results q)) ->
    search query max_results_per_query = Raise e ->
    BaseRetriever.search_multiple_queries E search
      (before ++ query :: after) max_results_per_query
    = (before ++ [query], Raise e).
Proof.
  intros E search results before after query e max Hok Hfail.
  unfold BaseRetriever.search_multiple_queries.
  generalize (∅ : gset pystr, @nil LiteratureItem).
  induction before as [|q before IH]; intros st.
  - cbn [app BaseRetriever.queries_loop]. by rewrite Hfail.
  - cbn [app BaseRetriever.queries_loop]. rewrite (Hok q) by left.
    rewrite IH by (intros q' Hq'; apply Hok; by right). done.
Qed.

(** X2 on three queries, the second of which fails. *)
Lemma search_multiple_queries_fails_fast_witness :
  BaseRetriever.search_multiple_queries PyExc Examples2.fails_on_bad
    ([py "a"] ++ py "bad" :: [py "c"]) 10
  = ([py "a"] ++ [py "bad"],
     Raise (mkExc Exception (py "ArXiv search failed: boom"))).
Proof.
  apply (search_multiple_queries_fails_fast PyExc Examples2.fails_on_bad
           Examples2.two_hits [py "a"] [py "c"] (py "bad")).
  - intros q Hq. apply list_elem_of_singleton in Hq as ->. reflexivity.
  - reflexivity.
Defined.

(** ** More of the arXiv retriever *)

Lemma split_char_go_last sep cur s :
  sep ∉ cur ->
  exists p a : pystr,
    last (PyStrMore.split_char_go sep cur s) = Some a
    /\ cur ++ s = p ++ a
    /\ (sep ∉ a)
    /\ (p = [] \/ exists p', p = p' ++ [sep]).
Proof.
  revert cur; induction s as [|c s IH]; intros cur Hcur.
  - exists [], cur. simpl. rewrite app_nil_r. by repeat split; [|left].
  - cbn [PyStrMore.split_char_go]. destruct (N.eqb_spec c sep) as [->|Hc].
    + destruct (IH [] (not_elem_of_nil sep)) as (p & a & Hlast & Heq & Ha & _).
      exists (cur ++ [sep] ++ p), a. split; [|split; [|split]].
      * destruct (PyStrMore.split_char_go sep [] s); [done|exact Hlast].
      * simpl in Heq. rewrite Heq. by rewrite <- !app_assoc.
      * exact Ha.
      * right. destruct (decide (p = [])) as [->|Hp].
        -- exists cur. by rewrite app_nil_r.
        -- simpl in Heq.
           destruct (IH [] (not_elem_of_nil sep))
             as (p2 & a2 & Hlast2 & Heq2 & _ & Hp2).
           rewrite Hlast in Hlast2. injection Hlast2 as <-.
           simpl in Heq2. rewrite Heq in Heq2.
           apply app_inv_tail in Heq2 as <-.
           destruct Hp2 as [->|[p' ->]]; [done|].
           exists (cur ++ [sep] ++ p'). by rewrite <- !app_assoc.
    + destruct (IH (cur ++ [c])) as (p & a & Hlast & Heq & Ha & Hp).
      { rewrite elem_of_app, list_elem_of_singleton. intros [?|?]; [done|].
        by subst. }
      exists p, a. rewrite <- app_assoc in Heq. by repeat split.
Qed.

(** X3. [_convert_arxiv_result] never raises.  The arXiv id it gives an
    item is the part of [entry_id] after the last slash, all of it when
    it has no slash: an identifier of the old style, archive and number,
    keeps its number only.  The [id] of the item is that part after
    [arxiv:], its [url] is the [entry_id], its source is [arxiv] and it
    has no full text. *)
Theorem convert_keeps_last_segment :
  forall arxiv_result : ArxivResults.ArxivResult,
    exists (prefix last_segment : pystr) (item : LiteratureItem),
      ArxivResults._convert_arxiv_result arxiv_result = Ok item
      /\ ArxivResults.entry_id arxiv_result = prefix ++ last_segment
      /\ (47%N ∉ last_segment)
      /\ (prefix = [] \/ exists p, prefix = p ++ [47%N])
      /\ item_id item = py "arxiv:" ++ last_segment
      /\ arxiv_id item = Some last_segment
      /\ url item = Some (ArxivResults.entry_id arxiv_result)
      /\ source item = py "arxiv"
      /\ full_text item = None.
Proof.
  intros r.
  destruct (split_char_go_last 47 [] (ArxivResults.entry_id r))
    as (p & a & Hlast & Heq & Ha & Hp); [apply not_elem_of_nil|].
  exists p, a. unfold ArxivResults._convert_arxiv_result,
    PyStrMore.index_last, PyStrMore.split_char.
  rewrite Hlast. eexists. split; [reflexivity|].
  cbn [item_id arxiv_id url source full_text].
  split; [exact Heq|]. split; [exact Ha|]. split; [exact Hp|].
  repeat split; reflexivity.
Qed.

Lemma convert_all_ok (results : list ArxivResults.ArxivResult) :
  exists items : list LiteratureItem,
    ArxivClient.convert_all ArxivResults.ArxivResult
      ArxivResults._convert_arxiv_result results = Ok items
    /\ url <$> items
       = (fun r => Some (ArxivResults.entry_id r)) <$> results
    /\ Forall (fun x => source x = py "arxiv") items.
Proof.
  induction results as [|r results (items & Hall & Hurl & Hsrc)].
  - exists []. by repeat split.
  - destruct (convert_keeps_last_segment r)
      as (p & a & item & Hr & _ & _ & _ & _ & _ & Hu & Hs & _).
    exists (item :: items). cbn [ArxivClient.convert_all].
    rewrite Hr, Hall. split; [done|]. split.
    + rewrite !fmap_cons. by rewrite Hu, Hurl.
    + by constructor.
Qed.

(** X4. When the arXiv API answers within 45 seconds, [search] returns
    one item for each result, in the order of the results, each with the
    [entry_id] of its result as [url] and with source [arxiv]; the
    conversion does not fail. *)
Theorem search_converts_in_order :
  forall (client_results :
            ArxivClient.Search -> ArxivClient.Reply ArxivResults.ArxivResult)
         (self_max_results : Z) (query : ArxivClient.pyval)
         (max_results : Z) (t : N)
         (results : list ArxivResults.ArxivResult),
    let reply :=
      client_results
        (ArxivClient.search_request self_max_results query max_results) in
    ArxivClient.finishes_after _ reply = Some t ->
    (t <= 45000)%N ->
    ArxivClient.fetched _ reply = Ok results ->
    exists items : list LiteratureItem,
      ArxivResults.search client_results self_max_results query max_results
      = (t, Ok items)
      /\ url <$> items
         = (fun r => Some (ArxivResults.entry_id r)) <$> results
      /\ Forall (fun x => source x = py "arxiv") items.
Proof.
  intros client smr query mr t results reply Ht Hle Hres.
  destruct (convert_all_ok results) as (items & Hall & Hurl & Hsrc).
  exists items. split; [|by split].
  unfold ArxivResults.search, ArxivClient.search. fold reply.
  unfold ArxivClient.wait_for, ArxivClient.in_time,
    ArxivClient.search_timeout, ArxivClient.search_arxiv.
  fold reply. rewrite Ht, Hres. cbn [default].
  rewrite (proj2 (N.leb_le t (1000 * 45)) Hle). by rewrite Hall.
Qed.

(** X4 on a client that answers after one second. *)
Lemma search_converts_in_order_witness :
  exists items : list LiteratureItem,
    ArxivResults.search Examples2.answers_one 100
      (ArxivClient.VStr (py "deep learning")) 10
    = (1000%N, Ok items)
    /\ url <$> items
       = [Some (ArxivResults.entry_id Examples2.old_style)].
Proof.
  destruct (search_converts_in_order Examples2.answers_one 100%Z
              (ArxivClient.VStr (py "deep learning")) 10%Z 1000%N
              [Examples2.old_style])
    as (items & Hrun & Hurl & _).
  - reflexivity.
  - lia.
  - reflexivity.
  - exists items. split; [exact Hrun|exact Hurl].
Defined.

(** X5. An error of the arXiv API inside the executor does not make
    [search] fail: when the API raises within 45 seconds, [search]
    returns the empty list, as if nothing had been found. *)
Theorem search_hides_api_errors :
  forall (client_results :
            ArxivClient.Search -> ArxivClient.Reply ArxivResults.ArxivResult)
         (self_max_results : Z) (query : ArxivClient.pyval)
         (max_results : Z) (t : N) (e : PyExc),
    let reply :=
      client_results
        (ArxivClient.search_request self_max_results query max_results) in
    ArxivClient.finishes_after _ reply = Some t ->
    (t <= 45000)%N ->
    ArxivClient.fetched _ reply = Raise e ->
    ArxivResults.search client_results self_max_results query max_results
    = (t, Ok []).
Proof.
  intros client smr query mr t e reply Ht Hle Hres.
  unfold ArxivResults.search, ArxivClient.search. fold reply.
  unfold ArxivClient.wait_for, ArxivClient.in_time,
    ArxivClient.search_timeout, ArxivClient.search_arxiv.
  fold reply. rewrite Ht, Hres. cbn [default].
  by rewrite (proj2 (N.leb_le t (1000 * 45)) Hle).
Qed.

(** X5 on a client whose API is down. *)
Lemma search_hides_api_errors_witness :
  ArxivResults.search Examples2.api_down 100
    (ArxivClient.VStr (py "deep learning")) 10
  = (1000%N, Ok []).
Proof.
  apply (search_hides_api_errors Examples2.api_down 100%Z
           (ArxivClient.VStr (py "deep learning")) 10%Z 1000%N
           (mkExc Exception (py "HTTP 503"))).
  - reflexivity.
  - lia.
  - reflexivity.
Defined.

Lemma prefixed_request (prefix name : pystr) (self_max_results max_results : Z) :
  Forall (fun c => (c < 19968 \/ 40959 < c)%N) prefix ->
  Forall (fun c => (c < 19968 \/ 40959 < c)%N) name ->
  ArxivClient.search_request self_max_results
    (ArxivClient.VStr (prefix ++ name)) max_results
  = ArxivClient.mkSearch (ArxivClient.VStr (prefix ++ name))
      (Z.min max_results self_max_results).
Proof.
  intros Hp Hn. unfold ArxivClient.search_request. f_equal.
  unfold ArxivClient.translate_chinese_query.
  rewrite (no_chinese (prefix ++ name)) by (by apply Forall_app).
  by destruct (nonempty (prefix ++ name)).
Qed.

(** X6. A category or an author without a character in U+4E00..U+9FFF
    is searched verbatim: what [search_by_category] and
    [search_by_author] return depends on the API only through its answer
    to the query [cat:] or [au:] followed by the unchanged name, with
    the smaller of [max_results] and the maximum of the client. *)
Theorem prefixed_search_is_verbatim :
  forall (client1 client2 :
            ArxivClient.Search -> ArxivClient.Reply ArxivResults.ArxivResult)
         (self_max_results : Z) (name : pystr) (max_results : Z),
    Forall (fun c => (c < 19968 \/ 40959 < c)%N) name ->
    (client1 (ArxivClient.mkSearch (ArxivClient.VStr (py "cat:" ++ name))
                (Z.min max_results self_max_results))
     = client2 (ArxivClient.mkSearch (ArxivClient.VStr (py "cat:" ++ name))
                  (Z.min max_results self_max_results)) ->
     ArxivResults.search_by_category client1 self_max_results name max_results
     = ArxivResults.search_by_category client2 self_max_results name
         max_results)
    /\ (client1 (ArxivClient.mkSearch (ArxivClient.VStr (py "au:" ++ name))
                   (Z.min max_results self_max_results))
        = client2 (ArxivClient.mkSearch (ArxivClient.VStr (py "au:" ++ name))
                     (Z.min max_results self_max_results)) ->
        ArxivResults.search_by_author client1 self_max_results name max_results
        = ArxivResults.search_by_author client2 self_max_results name
            max_results).
Proof.
  intros c1 c2 smr name mr Hname.
  assert (Hcat : Forall (fun c => (c < 19968 \/ 40959 < c)%N) (py "cat:"))
    by (repeat constructor; lia).
  assert (Hau : Forall (fun c => (c < 19968 \/ 40959 < c)%N) (py "au:"))
    by (repeat constructor; lia).
  split; intros Hsame.
  - unfold ArxivResults.search_by_category, ArxivResults.search,
      ArxivClient.search, ArxivClient.search_arxiv.
    rewrite (prefixed_request (py "cat:") name smr mr Hcat Hname).
    by rewrite Hsame.
  - unfold ArxivResults.search_by_author, ArxivResults.search,
      ArxivClient.search, ArxivClient.search_arxiv.
    rewrite (prefixed_request (py "au:") name smr mr Hau Hname).
    by rewrite Hsame.
Qed.

(** X6 on the category [cs.AI] and two clients that differ on every
    other query. *)
Lemma prefixed_search_is_verbatim_witness :
  ArxivResults.search_by_category Examples2.answers_one 100 (py "cs.AI") 10
  = ArxivResults.search_by_category Examples2.answers_category_only 100
      (py "cs.AI") 10.
Proof.
  apply (proj1 (prefixed_search_is_verbatim Examples2.answers_one
                  Examples2.answers_category_only 100%Z (py "cs.AI") 10%Z
                  ltac:(repeat constructor; lia))).
  vm_compute. reflexivity.
Defined.

(** ** The review pipeline *)

Section full_text_facts.
Variable E : Type.
Variable extract_text_from_url : nat -> pystr -> result E (option pystr).




End full_text_facts.













(** ** Key findings *)

Lemma lstrip_starts_clean s : starts_clean (lstrip s).
Proof.
  induction s as [|c s IH]; simpl; [done|].
  destruct (isspace c) eqn:Hc; [exact IH|exact Hc].
Qed.

Lemma lstrip_snoc s c :
  isspace c = false -> lstrip (s ++ [c]) = lstrip s ++ [c].
Proof.
  intros Hc. induction s as [|d s IH]; simpl; [by rewrite Hc|].
  by destruct (isspace d).
Qed.

Lemma rstrip_starts_clean s : starts_clean s -> starts_clean (rstrip s).
Proof.
  destruct s as [|c s]; [done|]. simpl. intros Hc. unfold rstrip.
  rewrite reverse_cons, (lstrip_snoc _ c Hc), reverse_app.
  by rewrite reverse_singleton.
Qed.

(** What [strip] returns has no whitespace at either end. *)
Lemma strip_strip s : strip (strip s) = strip s.
Proof.
  apply strip_clean.
  - apply rstrip_starts_clean, lstrip_starts_clean.
  - unfold strip, rstrip. rewrite reverse_involutive.
    apply lstrip_starts_clean.
Qed.

Lemma numbered_shape line :
  KeyFindings.numbered line = true ->
  exists d rest, line = d :: 46 :: rest /\ d <> 46.
Proof.
  unfold KeyFindings.numbered. intros Hn.
  apply existsb_exists in Hn as (d & Hd & Hstart).
  destruct line as [|a [|b rest]]; cbn [startswith] in Hstart;
    try (by rewrite ?andb_false_r in Hstart).
  rewrite andb_true_r in Hstart.
  apply andb_true_iff in Hstart as [Ha Hb].
  apply N.eqb_eq in Ha, Hb. subst a b. exists d, rest. split; [done|].
  intros ->. cbn in Hd. intuition discriminate.
Qed.

Lemma finding_of_ok line :
  exists o : option pystr,
    KeyFindings.finding_of line = Ok o
    /\ match o with
       | Some finding => finding <> [] /\ strip finding = finding
       | None => True
       end.
Proof.
  unfold KeyFindings.finding_of.
  destruct (nonempty (strip line) && KeyFindings.numbered (strip line))
    eqn:Hline; [|by exists None].
  apply andb_true_iff in Hline as [_ Hn].
  destruct (numbered_shape _ Hn) as (d & rest & -> & Hd).
  unfold PyStrMore.split_once. cbn [PyStrMore.split_once_go].
  rewrite (proj2 (N.eqb_neq d 46) Hd), N.eqb_refl.
  cbn [app PyStrMore.index lookup list_lookup].
  destruct (nonempty (strip rest)) eqn:Hf.
  - exists (Some (strip rest)). split; [done|]. split.
    + by destruct (strip rest).
    + apply strip_strip.
  - by exists None.
Qed.

Lemma findings_loop_ok lines findings :
  Forall (fun f => f <> [] /\ strip f = f) findings ->
  exists out : list pystr,
    KeyFindings.findings_loop lines findings = Ok out
    /\ Forall (fun f => f <> [] /\ strip f = f) out.
Proof.
  revert findings; induction lines as [|line lines IH]; intros findings Hf.
  - by exists findings.
  - cbn [KeyFindings.findings_loop].
    destruct (finding_of_ok line) as ([f|] & -> & Ho).
    + apply IH. apply Forall_app. split; [done|]. by constructor.
    + by apply IH.
Qed.

Lemma key_findings_shape
    (chat : KeyFindings.ChatMessages -> Summarizer.ChatOutcome)
    (texts : list pystr) :
  exists (requests : list KeyFindings.ChatMessages) (response : option pystr),
    (length requests <= 1)%nat
    /\ KeyFindings.generate_key_findings_summary chat texts
       = if truthy response then
           match
             KeyFindings.findings_loop
               (PyStrMore.split_char 10 (default [] response)) []
           with
           | Raise e => (requests, Raise e)
           | Ok findings => (requests, Ok (take 8 findings))
           end
         else (requests, Ok []).
Proof.
  destruct texts as [|t texts].
  - exists [], None. split; [simpl; lia|done].
  - eexists _, _. split; [|reflexivity]. simpl. lia.
Qed.

(** X10. [generate_key_findings_summary] does not raise, whatever the
    model answers: it returns eight findings at most, none of them empty
    and none with whitespace at either end.  It makes one completion
    request at most, and reads the first ten texts only. *)
Theorem key_findings_are_clean :
  forall (generate_chat_completion :
            KeyFindings.ChatMessages -> Summarizer.ChatOutcome)
         (texts : list pystr),
    exists findings : list pystr,
      (KeyFindings.generate_key_findings_summary generate_chat_completion
         texts).2
      = Ok findings
      /\ (length findings <= 8)%nat
      /\ Forall (fun f => f <> [] /\ strip f = f) findings
      /\ (length (KeyFindings.generate_key_findings_summary
                    generate_chat_completion texts).1 <= 1)%nat
      /\ KeyFindings.generate_key_findings_summary generate_chat_completion
           texts
         = KeyFindings.generate_key_findings_summary generate_chat_completion
             (take 10 texts).
Proof.
  intros chat texts.
  assert (Hten : KeyFindings.generate_key_findings_summary chat texts
                 = KeyFindings.generate_key_findings_summary chat
                     (take 10 texts)).
  { destruct texts as [|t texts]; [done|].
    unfold KeyFindings.generate_key_findings_summary.
    change (take 10 (t :: texts)) with (t :: take 9 texts) at 2.
    cbv iota. rewrite take_take. done. }
  destruct (key_findings_shape chat texts)
    as (requests & response & Hreq & Hrun).
  rewrite <- Hten, Hrun. clear Hten Hrun.
  destruct (truthy response).
  - destruct (findings_loop_ok
                (PyStrMore.split_char 10 (default [] response)) []
                (Forall_nil_2 _))
      as (out & Hout & Hall).
    match goal with
    | |- context [KeyFindings.findings_loop ?a ?b] =>
      change (KeyFindings.findings_loop a b = Ok out) in Hout
    end.
    rewrite Hout.
    exists (take 8 out). cbn [fst snd]. split; [done|].
    split; [rewrite length_take; lia|]. split; [|by split].
    by apply Forall_take.
  - exists []. cbn [fst snd]. split; [done|]. split; [simpl; lia|].
    split; [constructor|by split].
Qed.

(** ** Error handling utilities *)

(** X11. With [record_performance] left at its default [True], a
    function decorated with [handle_errors] or [handle_errors_async] is
    never entered: the wrapper fails on its import of
    [.performance_monitor] with [ModuleNotFoundError], whatever [reraise]
    and [default_return].  With [record_performance=False] the function
    is entered, and its value is returned when it does not raise.  When
    it raises and [reraise=False], [default_return] is returned, with
    one exception: when what it raises is an instance of the built-in
    [TimeoutError] and of none of [LiteratureReviewError], [ValueError],
    [FileNotFoundError], [PermissionError] and [ConnectionError], the
    conversion itself fails and a [TypeError] leaves the wrapper.  When
    it raises and [reraise=True] the wrapper does not return. *)
Theorem wrapper_defaults_but_for_timeouts :
  forall (A : Type) (func : unit -> result ErrorHandler.Caught A)
         (reraise : bool),
    ErrorHandler.wrapper func reraise true
    = (false, Raise ErrorHandler.ModuleNotFoundError)
    /\ (ErrorHandler.wrapper func reraise false).1 = true
    /\ match func tt with
       | Ok v =>
         (ErrorHandler.wrapper func reraise false).2
         = Ok (ErrorHandler.Value v)
       | Raise e =>
         let escapes :=
           match e with
           | ErrorHandler.IsCustom _ => false
           | ErrorHandler.IsForeign f =>
             ErrorHandler.isinstance f ErrorHandler.TimeoutError
             && negb (ErrorHandler.isinstance f ErrorHandler.ValueError)
             && negb (ErrorHandler.isinstance f
                        ErrorHandler.FileNotFoundError)
             && negb (ErrorHandler.isinstance f
                        ErrorHandler.PermissionError)
             && negb (ErrorHandler.isinstance f
                        ErrorHandler.ConnectionError)
           end in
         (ErrorHandler.wrapper func false false).2
         = (if escapes
            then Raise (ErrorHandler.FromHandler ErrorHandler.RaiseTypeError)
            else Ok ErrorHandler.Default)
         /\ exists r, (ErrorHandler.wrapper func true false).2 = Raise r
       end.
Proof.
  intros A func reraise. split; [done|]. split; [done|].
  unfold ErrorHandler.wrapper. cbn [fst snd].
  destruct (func tt) as [v|e]; [done|].
  destruct e as [c|f]; [split; [done|by eexists]|].
  unfold ErrorHandler.handle_exception, ErrorHandler._convert_exception.
  destruct (ErrorHandler.isinstance f ErrorHandler.ValueError),
    (ErrorHandler.isinstance f ErrorHandler.FileNotFoundError),
    (ErrorHandler.isinstance f ErrorHandler.PermissionError),
    (ErrorHandler.isinstance f ErrorHandler.ConnectionError),
    (ErrorHandler.isinstance f ErrorHandler.TimeoutError);
    cbn [andb negb]; split; first [done|by eexists].
Qed.

(** X12. [handle_exception] hands a [LiteratureReviewError] on as it
    is.  Any other exception that it can convert becomes an exception
    that keeps the original as [original_exception], has the name of its
    class as [error_code], and has the text of the original as its
    message, after [Unexpected error: ] when the original is of none of
    the classes tested for.  The only exceptions that it cannot convert
    are instances of the built-in [TimeoutError]. *)
Theorem handle_exception_keeps_the_original :
  forall (c0 : ErrorHandler.Custom) (f : ErrorHandler.Foreign),
    ErrorHandler.handle_exception (ErrorHandler.IsCustom c0) false = Ok c0
    /\ match
         ErrorHandler.handle_exception (ErrorHandler.IsForeign f) false
       with
       | Ok c =>
         ErrorHandler.original_exception c = Some f
         /\ ErrorHandler.error_code c
            = ErrorHandler.class_name (ErrorHandler.error_type c)
         /\ (ErrorHandler.message c = ErrorHandler.text f
             \/ (ErrorHandler.classes f = []
                 /\ ErrorHandler.message c
                    = py "Unexpected error: " ++ ErrorHandler.text f))
       | Raise r =>
         r = ErrorHandler.RaiseTypeError
         /\ ErrorHandler.TimeoutError ∈ ErrorHandler.classes f
       end.
Proof.
  intros c0 f. split; [done|].
  unfold ErrorHandler.handle_exception, ErrorHandler._convert_exception,
    ErrorHandler.isinstance.
  repeat case_bool_decide; cbn [ErrorHandler.original_exception
    ErrorHandler.error_code ErrorHandler.error_type ErrorHandler.message
    ErrorHandler.make];
    try (split; [done|]; split; [done|]; by left);
    try by split.
  split; [done|]. split; [done|]. right. split; [|done].
  destruct (ErrorHandler.classes f) as [|[] l]; [done|..];
    exfalso; match goal with H : _ ∉ _ |- _ => apply H; left end.
Qed.

(** ** Providers, requests and embeddings *)

Lemma lstrip_char_suffix ch s :
  exists k, s = k ++ PyStrMore.lstrip_char ch s
            /\ Forall (fun c => c = ch) k.
Proof.
  induction s as [|c s (k & Hk & Hall)]; simpl.
  - by exists [].
  - destruct (N.eqb_spec c ch) as [->|Hc].
    + exists (ch :: k). split; [by rewrite Hk at 1|by constructor].
    + by exists [].
Qed.

Lemma lstrip_char_head ch s : head (PyStrMore.lstrip_char ch s) <> Some ch.
Proof.
  induction s as [|c s IH]; simpl; [done|].
  destruct (N.eqb_spec c ch) as [->|Hc]; [exact IH|]. simpl. congruence.
Qed.

Lemma rstrip_char_snoc ch s :
  PyStrMore.rstrip_char ch (s ++ [ch]) = PyStrMore.rstrip_char ch s.
Proof.
  unfold PyStrMore.rstrip_char. rewrite reverse_app, reverse_singleton.
  cbn [app PyStrMore.lstrip_char]. by rewrite N.eqb_refl.
Qed.

(** X13. The URL of a request is the base URL without its trailing
    slashes, one slash, and the endpoint without its leading slashes: a
    slash more or less at the end of the configured base URL or at the
    start of the endpoint gives the same URL. *)
Theorem request_url_ignores_slashes :
  forall base_url endpoint : pystr,
    LLMGateway.request_url (base_url ++ [47]) endpoint
    = LLMGateway.request_url base_url endpoint
    /\ LLMGateway.request_url base_url (47 :: endpoint)
       = LLMGateway.request_url base_url endpoint
    /\ exists (b e slashes1 slashes2 : pystr),
         LLMGateway.request_url base_url endpoint = b ++ [47] ++ e
         /\ base_url = b ++ slashes1
         /\ endpoint = slashes2 ++ e
         /\ Forall (fun c => c = 47) (slashes1 ++ slashes2)
         /\ last b <> Some 47
         /\ head e <> Some 47.
Proof.
  intros base endpoint. unfold LLMGateway.request_url.
  split; [by rewrite rstrip_char_snoc|]. split.
  - cbn [PyStrMore.lstrip_char]. by rewrite N.eqb_refl.
  - destruct (lstrip_char_suffix 47 endpoint) as (k2 & Hk2 & Hall2).
    destruct (lstrip_char_suffix 47 (reverse base)) as (k1 & Hk1 & Hall1).
    exists (PyStrMore.rstrip_char 47 base),
      (PyStrMore.lstrip_char 47 endpoint), (reverse k1), k2.
    split; [done|]. split; [|split; [done|split; [|split]]].
    + unfold PyStrMore.rstrip_char. rewrite <- reverse_app, <- Hk1.
      by rewrite reverse_involutive.
    + apply Forall_app. split; [|done]. by apply Forall_reverse.
    + unfold PyStrMore.rstrip_char. rewrite last_reverse.
      apply lstrip_char_head.
    + apply lstrip_char_head.
Qed.

Lemma or_else_truthy (a : option pystr) (b : pystr) :
  nonempty b = true -> truthy (LLMGateway.or_else a b) = true.
Proof.
  intros Hb. unfold LLMGateway.or_else.
  by destruct (truthy a) eqn:Ha.
Qed.

(** X14. A manager that [_configure_provider] accepts has the provider
    of the configuration, which is one of the four.  For OpenAI and for
    DeepSeek its API key is the key of the configuration for that
    provider, and that key is not empty; for Ollama and the mock it has
    no key.  Its base URL is the one configured for the provider, or the
    provider's default when none is configured, so that it is not empty;
    the mock has none.  A configuration is refused exactly when the
    provider is none of the four, or is OpenAI or DeepSeek and the key
    for it is missing. *)
Theorem configured_manager_is_complete :
  forall config : LLMGateway.Config,
    match LLMGateway._configure_provider config with
    | Ok m =>
      LLMGateway.provider m = LLMGateway.llm_provider config
      /\ LLMGateway.provider m
         ∈ [py "openai"; py "deepseek"; py "ollama"; py "mock"]
      /\ (truthy (LLMGateway.base_url m) = true
          \/ LLMGateway.provider m = py "mock")
      /\ (truthy (LLMGateway.api_key m) = true
          \/ LLMGateway.provider m = py "ollama"
          \/ LLMGateway.provider m = py "mock")
      /\ ((LLMGateway.provider m = py "openai"
           /\ LLMGateway.api_key m = LLMGateway.openai_api_key config
           /\ truthy (LLMGateway.openai_api_key config) = true
           /\ LLMGateway.base_url m
              = (if truthy (LLMGateway.openai_api_base config)
                 then LLMGateway.openai_api_base config
                 else Some (py "https://api.openai.com/v1"))
           /\ LLMGateway.model_name m
              = Some (LLMGateway.openai_model config))
          \/ (LLMGateway.provider m = py "deepseek"
              /\ LLMGateway.api_key m = LLMGateway.deepseek_api_key config
              /\ truthy (LLMGateway.deepseek_api_key config) = true
              /\ LLMGateway.base_url m
                 = (if truthy (LLMGateway.deepseek_api_base config)
                    then LLMGateway.deepseek_api_base config
                    else Some (py "https://api.deepseek.com/v1"))
              /\ LLMGateway.model_name m
                 = Some (LLMGateway.deepseek_model config))
          \/ (LLMGateway.provider m = py "ollama"
              /\ LLMGateway.api_key m = None
              /\ LLMGateway.base_url m
                 = (if truthy (LLMGateway.ollama_api_base config)
                    then LLMGateway.ollama_api_base config
                    else Some (py "http://localhost:11434/api"))
              /\ LLMGateway.model_name m = LLMGateway.ollama_model config)
          \/ (LLMGateway.provider m = py "mock"
              /\ LLMGateway.api_key m = None
              /\ LLMGateway.base_url m = None
              /\ LLMGateway.model_name m = Some (py "mock_model")))
    | Raise LLMGateway.OpenAIKeyNotConfigured =>
      LLMGateway.llm_provider config = py "openai"
      /\ truthy (LLMGateway.openai_api_key config) = false
    | Raise LLMGateway.DeepSeekKeyNotConfigured =>
      LLMGateway.llm_provider config = py "deepseek"
      /\ truthy (LLMGateway.deepseek_api_key config) = false
    | Raise (LLMGateway.UnsupportedProvider p) =>
      p = LLMGateway.llm_provider config
      /\ p ∉ [py "openai"; py "deepseek"; py "ollama"; py "mock"]
    end.
Proof.
  intros config. unfold LLMGateway._configure_provider.
  repeat case_bool_decide.
  - destruct (truthy (LLMGateway.openai_api_key config)) eqn:Hkey;
      cbn [LLMGateway.provider LLMGateway.base_url LLMGateway.api_key
           LLMGateway.model_name];
      [|split; [assumption|reflexivity]].
    split; [reflexivity|]. split; [rewrite H; left|].
    split; [left; by apply or_else_truthy|]. split; [by left|].
    left. split; [assumption|]. split; [reflexivity|].
    split; [reflexivity|]. split; reflexivity.
  - destruct (truthy (LLMGateway.deepseek_api_key config)) eqn:Hkey;
      cbn [LLMGateway.provider LLMGateway.base_url LLMGateway.api_key
           LLMGateway.model_name];
      [|split; [assumption|reflexivity]].
    split; [reflexivity|]. split; [rewrite H0; right; left|].
    split; [left; by apply or_else_truthy|]. split; [by left|].
    right; left. split; [assumption|]. split; [reflexivity|].
    split; [reflexivity|]. split; reflexivity.
  - cbn [LLMGateway.provider LLMGateway.base_url LLMGateway.api_key
         LLMGateway.model_name].
    split; [reflexivity|]. split; [rewrite H1; right; right; left|].
    split; [left; by apply or_else_truthy|]. split; [right; by left|].
    right; right; left. split; [assumption|]. split; [reflexivity|].
    split; reflexivity.
  - cbn [LLMGateway.provider LLMGateway.base_url LLMGateway.api_key
         LLMGateway.model_name].
    split; [reflexivity|]. split; [rewrite H2; right; right; right; left|].
    split; [by right|]. split; [right; by right|].
    right; right; right. split; [assumption|]. split; [reflexivity|].
    split; reflexivity.
  - split; [reflexivity|]. rewrite !not_elem_of_cons.
    repeat split; try assumption. apply not_elem_of_nil.
Qed.

Lemma configured_manager_is_complete_aux (config : LLMGateway.Config)
    (m : LLMGateway.Manager) :
  LLMGateway._configure_provider config = Ok m ->
  LLMGateway.provider m
  ∈ [py "openai"; py "deepseek"; py "ollama"; py "mock"]
  /\ (truthy (LLMGateway.base_url m) = true
      \/ LLMGateway.provider m = py "mock")
  /\ (truthy (LLMGateway.api_key m) = true
      \/ LLMGateway.provider m = py "ollama"
      \/ LLMGateway.provider m = py "mock").
Proof.
  unfold LLMGateway._configure_provider.
  repeat case_bool_decide;
    repeat (match goal with
            | |- context [if truthy ?k then _ else _] =>
              destruct (truthy k) eqn:?
            end);
    intros [= <-];
    cbn [LLMGateway.provider LLMGateway.base_url LLMGateway.api_key].
  - split; [rewrite H; left|].
    split; [left; by apply or_else_truthy|by left].
  - split; [rewrite H0; right; left|].
    split; [left; by apply or_else_truthy|by left].
  - split; [rewrite H1; right; right; left|].
    split; [left; by apply or_else_truthy|right; by left].
  - split; [rewrite H2; right; right; right; left|].
    split; right; [done|by right].
Qed.

Lemma make_request_bounded (Data : Type) (max_retries : Z)
    (send : Z -> LLMManager.Outcome Data) (base_url : option pystr) :
  (length (LLMManager.requests
             (LLMManager._make_request Data max_retries LLMManager.POST send
                base_url).1)
   <= Z.to_nat max_retries)%nat.
Proof.
  unfold LLMManager._make_request.
  destruct (negb (truthy base_url)); [simpl; lia|].
  etrans; [apply requests_bounded|].
  unfold LLMManager.range. by rewrite length_fmap, length_seq.
Qed.

Lemma make_request_has_base_url (Data : Type) (max_retries : Z)
    (send : Z -> LLMManager.Outcome Data) (base_url : option pystr) :
  truthy base_url = true ->
  (LLMManager._make_request Data max_retries LLMManager.POST send base_url).2
  <> Raise LLMManager.BaseUrlNotConfigured.
Proof.
  intros Hb. unfold LLMManager._make_request. rewrite Hb. cbn [negb].
  generalize (LLMManager.range max_retries).
  intros todo. induction todo as [|attempt todo IH]; [done|].
  cbn [LLMManager.attempts].
  destruct (send attempt) as [d|code text| |]; try done;
    repeat (match goal with
            | |- context [if ?b then _ else _] => destruct b
            end); try done.
Qed.

(** X15. A manager that [_configure_provider] accepted never fails a
    chat completion for want of a base URL.  The mock provider makes no
    call of [_make_request] and returns the mock response; every other
    provider makes exactly one call, or none when it has no model name,
    which is then the failure.  The call sends [llm_max_retries]
    requests at most, to the base URL without its trailing slashes
    followed by a slash and the endpoint, with the API key as bearer
    token except for Ollama, which gets none. *)
Theorem configured_chat_completion :
  forall (Msgs T Data : Type) (mock_response : Data)
         (transport :
            LLMGateway.HttpRequest (LLMGateway.ChatPayload Msgs T) -> Z ->
            LLMManager.Outcome Data)
         (config : LLMGateway.Config) (m : LLMGateway.Manager)
         (messages : Msgs) (max_tokens : option Z) (temperature : T)
         (stream : bool),
    LLMGateway._configure_provider config = Ok m ->
    let run :=
      LLMGateway.generate_chat_completion Msgs T Data mock_response
        transport config m messages max_tokens temperature stream in
    run.2 <> Raise (LLMGateway.ChatRequestFailed
                      LLMManager.BaseUrlNotConfigured)
    /\ ((LLMGateway.provider m = py "mock"
         /\ run = ([], Ok mock_response))
        \/ (LLMGateway.provider m <> py "mock"
            /\ (length run.1 = 1%nat
                \/ run = ([], Raise LLMGateway.ModelNameNotConfigured))))
    /\ Forall
         (fun call =>
            (length (LLMManager.requests call.2)
             <= Z.to_nat (LLMGateway.llm_max_retries config))%nat
            /\ LLMGateway.authorization call.1
               = (if bool_decide (LLMGateway.provider m = py "ollama")
                  then None else LLMGateway.api_key m)
            /\ exists endpoint,
                 LLMGateway.url call.1
                 = PyStrMore.rstrip_char 47
                     (default [] (LLMGateway.base_url m))
                   ++ [47] ++ endpoint)
         run.1.
Proof.
  intros Msgs T Data mock transport config m messages max_tokens temperature
    stream Hconf run.
  pose proof (configured_manager_is_complete_aux config m Hconf)
    as (Hprov & Hbase & Hkey).
  subst run. unfold LLMGateway.generate_chat_completion.
  destruct (bool_decide (LLMGateway.provider m = py "mock")) eqn:Hmock.
  { apply bool_decide_eq_true in Hmock. cbn [fst snd length].
    split; [done|]. split; [left; by split|constructor]. }
  apply bool_decide_eq_false in Hmock.
  destruct Hbase as [Hbase|Hbase]; [|done].
  destruct (truthy (LLMGateway.model_name m)); cbn [negb];
    [|cbn [fst snd length]; split; [done|];
      split; [right; split; [done|by right]|constructor]].
  assert (Hrequest : forall request,
    let r := LLMManager._make_request Data (LLMGateway.llm_max_retries config)
               LLMManager.POST (transport request) (LLMGateway.base_url m) in
    match r.2 with
    | Ok response_data => Ok response_data
    | Raise e => Raise (LLMGateway.ChatRequestFailed e)
    end <> Raise (LLMGateway.ChatRequestFailed
                    LLMManager.BaseUrlNotConfigured)).
  { intros request r.
    pose proof (make_request_has_base_url Data
                  (LLMGateway.llm_max_retries config) (transport request)
                  (LLMGateway.base_url m) Hbase) as Hne.
    fold r in Hne. destruct r.2 as [d|e]; [done|]. congruence. }
  destruct (bool_decide (LLMGateway.provider m = py "openai")
            || bool_decide (LLMGateway.provider m = py "deepseek"))
    eqn:Hod.
  - cbn [fst snd length]. split; [apply Hrequest|].
    split; [right; split; [done|by left]|].
    constructor; [|constructor]. cbn [fst snd].
    split; [apply make_request_bounded|]. split.
    + unfold LLMGateway.request_of, LLMGateway.bearer.
      cbn [LLMGateway.authorization].
      destruct (bool_decide (LLMGateway.provider m = py "ollama")) eqn:Hol.
      * by rewrite andb_false_r.
      * destruct Hkey as [->|[Hk|Hk]]; [done| |done].
        apply bool_decide_eq_false in Hol. done.
    + by eexists.
  - destruct (bool_decide (LLMGateway.provider m = py "ollama")) eqn:Hol.
    + cbn [fst snd length]. split; [apply Hrequest|].
      split; [right; split; [done|by left]|].
      constructor; [|constructor]. cbn [fst snd].
      split; [apply make_request_bounded|]. split.
      * unfold LLMGateway.request_of, LLMGateway.bearer.
        cbn [LLMGateway.authorization]. rewrite Hol.
        by rewrite andb_false_r.
      * by eexists.
    + exfalso. apply orb_false_iff in Hod as [Ho Hd].
      apply bool_decide_eq_false in Ho, Hd, Hol.
      rewrite !elem_of_cons in Hprov.
      destruct Hprov as [?|[?|[?|[?|Hnil]]]]; try done.
      by apply elem_of_nil in Hnil.
Qed.

(** X15 on DeepSeek with a chat API that is down. *)
Lemma configured_chat_completion_witness :
  LLMGateway._configure_provider Examples3.deepseek_config
  = Ok Examples3.deepseek_manager
  /\ (LLMGateway.generate_chat_completion unit unit unit tt
        Examples3.chat_down Examples3.deepseek_config
        Examples3.deepseek_manager tt None tt false).2
     <> Raise (LLMGateway.ChatRequestFailed LLMManager.BaseUrlNotConfigured).
Proof.
  split; [vm_compute; reflexivity|].
  apply (configured_chat_completion unit unit unit tt Examples3.chat_down
           Examples3.deepseek_config Examples3.deepseek_manager tt None tt
           false).
  vm_compute. reflexivity.
Defined.

Lemma restore_same (m : LLMGateway.Manager) :
  LLMGateway.restore m (LLMGateway.provider m) (LLMGateway.api_key m)
    (LLMGateway.base_url m) = m.
Proof. by destruct m. Qed.

(** X16. [generate_embedding] leaves the manager as it found it, whatever
    the provider and whatever the outcome: also after the fallback of
    DeepSeek to OpenAI, which switches the manager to OpenAI for one
    request, whether the request fails, the response is not of the
    expected shape, or all goes well.  That one request goes to the
    embeddings endpoint of OpenAI with the OpenAI key as bearer token,
    never with the key of DeepSeek, and asks for the OpenAI embedding
    model of the configuration. *)
Theorem embedding_fallback_restores :
  forall (Vec : Type) (mock_vector : Z -> Vec)
         (transport :
            LLMGateway.HttpRequest LLMGateway.EmbeddingPayload -> Z ->
            LLMManager.Outcome (LLMGateway.Body Vec))
         (config : LLMGateway.Config) (m : LLMGateway.Manager)
         (input_texts : list pystr) (embedding_model : option pystr),
    let run :=
      LLMGateway.generate_embedding Vec mock_vector transport config m
        input_texts embedding_model in
    run.1.1 = m
    /\ (LLMGateway.provider m = py "deepseek" ->
        truthy (LLMGateway.openai_api_key config) = true ->
        exists events,
          run.1.2
          = [(LLMGateway.mkRequest
                (py "https://api.openai.com/v1/embeddings")
                (LLMGateway.openai_api_key config)
                (LLMGateway.InputModel input_texts
                   (LLMGateway.openai_embedding_model config)),
              events)]).
Proof.
  intros Vec mock transport config m texts em run. subst run.
  unfold LLMGateway.generate_embedding. split.
  - repeat case_bool_decide; try done.
    + destruct (negb _); [done|].
      destruct (LLMGateway._make_request Vec transport config m _ _)
        as [call [body|e]]; [|done].
      destruct (LLMGateway.data Vec body) as [items|]; [|done].
      by destruct (LLMGateway.embeddings_of Vec items).
    + by destruct (negb _).
    + destruct (truthy (LLMGateway.openai_api_key config)); [|done].
      destruct (LLMGateway._make_request Vec transport config _ _ _)
        as [call [body|e]]; cbn [fst snd].
      * destruct (LLMGateway.data Vec body) as [items|];
          [destruct (LLMGateway.embeddings_of Vec items)|];
          cbn [fst snd]; unfold LLMGateway.restore; by destruct m.
      * unfold LLMGateway.restore; by destruct m.
  - intros Hprov Hkey. rewrite Hprov, Hkey.
    repeat case_bool_decide; try done.
    unfold LLMGateway._make_request, LLMGateway.request_of,
      LLMGateway.bearer.
    cbn [LLMGateway.provider LLMGateway.api_key LLMGateway.base_url
         default].
    rewrite Hkey.
    replace (LLMGateway.request_url (py "https://api.openai.com/v1")
               (py "embeddings"))
      with (py "https://api.openai.com/v1/embeddings") by (by vm_compute).
    replace (negb (bool_decide (py "openai" = py "ollama"))) with true
      by (by vm_compute).
    cbn [andb].
    match goal with
    | |- context [LLMManager._make_request ?D ?r ?meth ?send ?b] =>
      destruct (LLMManager._make_request D r meth send b) as [events out]
    end.
    cbn [fst snd].
    exists events.
    destruct out as [body|e]; [|done].
    destruct (LLMGateway.data Vec body) as [items|]; [|done].
    by destruct (LLMGateway.embeddings_of Vec items).
Qed.

(** X16 on DeepSeek with an embedding API that is down. *)
Lemma embedding_fallback_restores_witness :
  LLMGateway.provider Examples3.deepseek_manager = py "deepseek"
  /\ truthy (LLMGateway.openai_api_key Examples3.deepseek_config) = true
  /\ exists events,
       (LLMGateway.generate_embedding (list Z) (fun n => []) 
          Examples3.embeddings_down Examples3.deepseek_config
          Examples3.deepseek_manager [py "a text"] None).1.2
       = [(LLMGateway.mkRequest
             (py "https://api.openai.com/v1/embeddings")
             (LLMGateway.openai_api_key Examples3.deepseek_config)
             (LLMGateway.InputModel [py "a text"]
                (LLMGateway.openai_embedding_model
                   Examples3.deepseek_config)),
           events)].
Proof.
  split; [reflexivity|]. split; [reflexivity|].
  apply (proj2 (embedding_fallback_restores (list Z) (fun n => [])
                  Examples3.embeddings_down Examples3.deepseek_config
                  Examples3.deepseek_manager [py "a text"] None));
    reflexivity.
Defined.

(** ** Recent papers *)

Lemma filter_by_date_sublist before after items start_date end_date out :
  Recent.filter_by_date before after items start_date end_date = Ok out ->
  sublist out items.
Proof.
  revert out. induction items as [|item items IH]; intros out; simpl.
  - intros [= <-]. constructor.
  - destruct (publication_date item) as [published|].
    + destruct (Recent.out_of_range before after published start_date
                  end_date) as [[|]|e]; [|..|done].
      * intros H. apply sublist_cons. by apply IH.
      * destruct (Recent.filter_by_date before after items start_date
                    end_date) as [filtered|e]; [|done].
        intros [= <-]. apply sublist_skip. by apply IH.
    + intros H. apply sublist_cons. by apply IH.
Qed.

Lemma filter_by_date_in_range before after items start_date end_date out :
  Recent.filter_by_date before after items start_date end_date = Ok out ->
  Forall (fun item =>
            exists published,
              publication_date item = Some published
              /\ Recent.out_of_range before after published start_date
                   end_date = Ok false) out.
Proof.
  revert out. induction items as [|item items IH]; intros out; simpl.
  - intros [= <-]. constructor.
  - destruct (publication_date item) as [published|] eqn:Hdate;
      [|by apply IH].
    destruct (Recent.out_of_range before after published start_date
                end_date) as [[|]|e] eqn:Hrange; [by apply IH| |done].
    destruct (Recent.filter_by_date before after items start_date
                end_date) as [filtered|e]; [|done].
    intros [= <-]. constructor; [by exists published|by apply IH].
Qed.

(** X17. [filter_by_date] drops the items that have no publication date,
    also when it is given no bound: then it compares nothing, does not
    raise, and returns the dated items in their order.  With bounds, what
    it returns is in the order of the input and holds dated items only,
    none before [start_date] and none after [end_date], and every item of
    the input that is dated and within the bounds. *)
Theorem filter_by_date_drops_undated :
  forall (before after : pystr -> Recent.datetime -> result PyExc bool)
         (items : list LiteratureItem)
         (start_date end_date : option Recent.datetime),
    Recent.filter_by_date before after items None None
    = Ok (List.filter (fun item => bool_decide (is_Some (publication_date item)))
            items)
    /\ forall out,
         Recent.filter_by_date before after items start_date end_date
         = Ok out ->
         sublist out items
         /\ forall item,
              item ∈ out <->
              item ∈ items
              /\ exists published,
                   publication_date item = Some published
                   /\ (forall s, start_date = Some s ->
                                 before published s = Ok false)
                   /\ (forall e, end_date = Some e ->
                                 after published e = Ok false).
Proof.
  intros before after items start_date end_date. split.
  - induction items as [|item items IH]; simpl; [done|].
    destruct (publication_date item) as [published|]; simpl.
    + by rewrite IH.
    + exact IH.
  - intros out Hout. split; [by eapply filter_by_date_sublist|].
    assert (Hrange : forall published,
               Recent.out_of_range before after published start_date
                 end_date = Ok false <->
               (forall s, start_date = Some s ->
                          before published s = Ok false)
               /\ (forall e, end_date = Some e ->
                             after published e = Ok false)).
    { intros published. unfold Recent.out_of_range.
      destruct start_date as [s|], end_date as [e|];
        [destruct (before published s) as [[|]|x] eqn:Hs
        |destruct (before published s) as [[|]|x] eqn:Hs|..];
        (split;
         [intros He; split; intros ? ?; simplify_eq; congruence
         |intros [H1 H2];
          try specialize (H1 _ eq_refl); try specialize (H2 _ eq_refl);
          congruence]). }
    revert out Hout.
    induction items as [|item0 items IH]; intros out; simpl.
    + intros [= <-] item. split; [by intros ?%elem_of_nil|].
      by intros [?%elem_of_nil _].
    + destruct (publication_date item0) as [published|] eqn:Hdate.
      * destruct (Recent.out_of_range before after published start_date
                    end_date) as [[|]|e] eqn:Hr; [| |done].
        -- intros Hout item. rewrite (IH out Hout item), elem_of_cons.
           split; [intros [H1 H2]; split; [by right|done]|].
           intros [[->|H1] H2]; [|done].
           destruct H2 as (p & Hp & H2). rewrite Hdate in Hp.
           injection Hp as <-. apply Hrange in H2. congruence.
        -- destruct (Recent.filter_by_date before after items start_date
                       end_date) as [filtered|e]; [|done].
           intros [= <-] item. rewrite !elem_of_cons, (IH filtered eq_refl).
           split.
           ++ intros [->|[H1 H2]]; [|split; [by right|done]].
              split; [by left|]. exists published. split; [done|].
              by apply Hrange.
           ++ intros [[->|H1] H2]; [by left|by right].
      * intros Hout item. rewrite (IH out Hout item), elem_of_cons.
        split; [intros [H1 H2]; split; [by right|done]|].
        intros [[->|H1] H2]; [|done].
        destruct H2 as (p & Hp & _). congruence.
Qed.

(** X17 on an undated item and one dated, without time zone, the day
    after the lower bound, with the comparison of naive dates. *)
Lemma filter_by_date_drops_undated_witness :
  Recent.filter_by_date Recent.published_lt Recent.published_gt
    [Examples2.with_pdf; Examples4.dated_naive] (Some Examples4.today) None
  = Ok [Examples4.dated_naive]
  /\ sublist [Examples4.dated_naive]
       [Examples2.with_pdf; Examples4.dated_naive].
Proof.
  split; [vm_compute; reflexivity|].
  apply (proj2 (filter_by_date_drops_undated Recent.published_lt
                  Recent.published_gt
                  [Examples2.with_pdf; Examples4.dated_naive]
                  (Some Examples4.today) None) [Examples4.dated_naive]).
  vm_compute. reflexivity.
Defined.

(** X18. [search_recent] moves the cutoff with [replace(day=day - days)]:
    when the day of the month of the current date is not greater than
    [days], or [day - days] is a day that the current month does not
    have, it does not return.  It has searched and waited for the result
    by then: it raises the [ValueError] of [replace] when the search
    returned, and the exception of the search when it did not.  With the
    default of 30 days that is every day of a month but the 31st. *)
Theorem search_recent_day_out_of_range :
  forall (client_results :
            ArxivClient.Search -> ArxivClient.Reply ArxivResults.ArxivResult)
         (self_max_results : Z)
         (before after : pystr -> Recent.datetime -> result PyExc bool)
         (utcnow : Recent.datetime) (query : ArxivClient.pyval)
         (days max_results : Z),
    let searched :=
      ArxivResults.search client_results self_max_results query
        (max_results * 3)%Z in
    let run :=
      Recent.search_recent client_results self_max_results before after
        utcnow query days max_results in
    (Recent.day utcnow <= days)%Z
    \/ (Recent._days_in_month (Recent.year utcnow) (Recent.month utcnow)
        < Recent.day utcnow - days)%Z ->
    run.1 = searched.1
    /\ run.2
       = match searched.2 with
         | Ok _ => Raise (Recent.DayOutOfRange (Recent.day utcnow - days))
         | Raise e => Raise (Recent.SearchFailed e)
         end.
Proof.
  intros client_results self_max_results before after utcnow query days
    max_results searched run Hday.
  subst run searched. unfold Recent.search_recent.
  destruct (ArxivResults.search client_results self_max_results query
              (max_results * 3)%Z) as [waited [all_items|e]];
    cbn [fst snd]; [|done].
  unfold Recent.replace_day.
  destruct (Z.leb_spec 1 (Recent.day utcnow - days)) as [H1|H1];
    destruct (Z.leb_spec (Recent.day utcnow - days)
                (Recent._days_in_month (Recent.year utcnow)
                   (Recent.month utcnow))) as [H2|H2];
    cbn [andb fst snd]; try done.
  exfalso. lia.
Qed.

(** X18 on the third of November with the default of 30 days. *)
Lemma search_recent_day_out_of_range_witness :
  (Recent.day Examples4.today <= 30)%Z
  /\ (Recent.search_recent Examples2.answers_one 10 Examples4.all_recent
        Examples4.all_recent Examples4.today
        (ArxivClient.VStr [113]) 30 10).2
     = Raise (Recent.DayOutOfRange (-27)).
Proof.
  split; [vm_compute; discriminate|].
  apply (search_recent_day_out_of_range Examples2.answers_one 10
           Examples4.all_recent Examples4.all_recent Examples4.today
           (ArxivClient.VStr [113]) 30 10).
  left. vm_compute. discriminate.
Defined.

Lemma convert_publication_date (r : ArxivResults.ArxivResult)
    (item : LiteratureItem) :
  ArxivResults._convert_arxiv_result r = Ok item ->
  publication_date item = Some (ArxivResults.published r).
Proof.
  unfold ArxivResults._convert_arxiv_result.
  destruct (PyStrMore.index_last _) as [arxiv_id|e]; [|done].
  by intros [= <-].
Qed.

Lemma convert_all_dates (results : list ArxivResults.ArxivResult)
    (items : list LiteratureItem) :
  ArxivClient.convert_all ArxivResults.ArxivResult
    ArxivResults._convert_arxiv_result results = Ok items ->
  Forall (fun item =>
            exists r, r ∈ results
                      /\ publication_date item
                         = Some (ArxivResults.published r)) items.
Proof.
  revert items. induction results as [|r results IH]; intros items.
  - intros [= <-]. constructor.
  - cbn [ArxivClient.convert_all].
    destruct (ArxivResults._convert_arxiv_result r) as [item|e] eqn:Hr;
      [|done].
    destruct (ArxivClient.convert_all _ _ results) as [rest|e]; [|done].
    intros [= <-]. constructor.
    + exists r. split; [left|]. by apply convert_publication_date.
    + eapply Forall_impl; [by apply IH|].
      intros item' (r' & Hin & Hdate). exists r'. split; [by right|done].
Qed.

(** When the dates of the results of the API have a time zone, so have
    the publication dates of the items that [search] returns. *)
Lemma search_dates_have_tzinfo
    (client_results :
       ArxivClient.Search -> ArxivClient.Reply ArxivResults.ArxivResult)
    (self_max_results : Z) (query : ArxivClient.pyval) (max_results : Z)
    (items : list LiteratureItem) :
  (forall request results,
     ArxivClient.fetched _ (client_results request) = Ok results ->
     Forall (fun r => Recent.has_tzinfo (ArxivResults.published r) = true)
            results) ->
  (ArxivResults.search client_results self_max_results query max_results).2
  = Ok items ->
  Forall (fun item =>
            exists published,
              publication_date item = Some published
              /\ Recent.has_tzinfo published = true) items.
Proof.
  intros Haware. unfold ArxivResults.search, ArxivClient.search.
  set (request := ArxivClient.search_request self_max_results query
                    max_results).
  destruct (ArxivClient.wait_for _ _ _) as [waited [results|e]] eqn:Hwait;
    [|done].
  assert (Hresults : Forall (fun r => Recent.has_tzinfo
                                        (ArxivResults.published r) = true)
                            results).
  { unfold ArxivClient.wait_for in Hwait.
    destruct (ArxivClient.in_time _ _); [|done].
    injection Hwait as _ <-. unfold ArxivClient.search_arxiv.
    destruct (ArxivClient.fetched _ (client_results request))
      as [fetched|e] eqn:Hfetched; [by eapply Haware|constructor]. }
  destruct (ArxivClient.convert_all _ _ results) as [converted|e] eqn:Hconv;
    cbn [snd]; [|done].
  intros [= <-]. apply convert_all_dates in Hconv.
  eapply Forall_impl; [exact Hconv|].
  intros item (r & Hin & Hdate). exists (ArxivResults.published r).
  split; [done|]. rewrite Forall_forall in Hresults. by apply Hresults.
Qed.

(** On items whose dates have a time zone, the comparison with a bound
    that has none raises at the first item. *)
Lemma filter_by_date_aware (item : LiteratureItem)
    (items : list LiteratureItem) (start_date : Recent.datetime)
    (end_date : option Recent.datetime) :
  (exists published,
     publication_date item = Some published
     /\ Recent.has_tzinfo published = true) ->
  Recent.filter_by_date Recent.published_lt Recent.published_gt
    (item :: items) (Some start_date) end_date
  = Raise Recent.naive_and_aware.
Proof.
  intros (published & Hdate & Haware). cbn [Recent.filter_by_date].
  rewrite Hdate. unfold Recent.out_of_range, Recent.published_lt.
  by rewrite Haware.
Qed.

(** X19. The publication dates of arXiv results have a time zone, and
    the cutoff of [search_recent], made from [utcnow()], has none.  So
    [search_recent] never returns a paper.  It returns only when the
    search found nothing, and then the empty list.  When the search
    found something, [filter_by_date] raises the [TypeError] of
    comparing the two kinds of dates at the first item, unless [replace]
    has raised before; and a failed search fails [search_recent]. *)
Theorem search_recent_never_returns_a_paper :
  forall (client_results :
            ArxivClient.Search -> ArxivClient.Reply ArxivResults.ArxivResult)
         (self_max_results : Z) (utcnow : Recent.datetime)
         (query : ArxivClient.pyval) (days max_results : Z),
    (forall request results,
       ArxivClient.fetched _ (client_results request) = Ok results ->
       Forall (fun r => Recent.has_tzinfo (ArxivResults.published r) = true)
              results) ->
    let searched :=
      ArxivResults.search client_results self_max_results query
        (max_results * 3)%Z in
    let run :=
      Recent.search_recent client_results self_max_results
        Recent.published_lt Recent.published_gt utcnow query days
        max_results in
    let in_range :=
      (1 <= Recent.day utcnow - days
       <= Recent._days_in_month (Recent.year utcnow)
            (Recent.month utcnow))%Z in
    match run.2 with
    | Ok items => items = [] /\ searched.2 = Ok [] /\ in_range
    | Raise (Recent.ComparisonFailed e) =>
      e = Recent.naive_and_aware
      /\ (exists item all_items, searched.2 = Ok (item :: all_items))
      /\ in_range
    | Raise (Recent.DayOutOfRange d) =>
      d = (Recent.day utcnow - days)%Z
      /\ (exists all_items, searched.2 = Ok all_items)
      /\ ~ in_range
    | Raise (Recent.SearchFailed e) => searched.2 = Raise e
    end.
Proof.
  intros client_results self_max_results utcnow query days max_results
    Haware searched run in_range.
  pose proof (search_dates_have_tzinfo client_results self_max_results
                query (max_results * 3)%Z) as Hdates.
  specialize (fun items => Hdates items Haware).
  subst run searched in_range. unfold Recent.search_recent.
  destruct (ArxivResults.search client_results self_max_results query
              (max_results * 3)%Z) as [waited [all_items|e]];
    cbn [fst snd] in *; [|done].
  specialize (Hdates all_items eq_refl).
  unfold Recent.replace_day.
  destruct (Z.leb_spec 1 (Recent.day utcnow - days)) as [H1|H1];
    destruct (Z.leb_spec (Recent.day utcnow - days)
                (Recent._days_in_month (Recent.year utcnow)
                   (Recent.month utcnow))) as [H2|H2];
    cbn [andb fst snd];
    try (split; [reflexivity|]; split; [by eexists|lia]).
  destruct all_items as [|item all_items].
  - cbn [Recent.filter_by_date snd]. split; [|split; [done|lia]].
    unfold Dedup.slice_to. destruct (0 <=? max_results)%Z;
      by rewrite take_nil.
  - apply Forall_cons in Hdates as [Hitem _].
    rewrite (filter_by_date_aware item all_items _ None Hitem).
    cbn [snd]. split; [done|]. split; [by eexists _, _|lia].
Qed.

(** X19 on the third of November, looking back two days, with a client
    that finds a paper of 1999 dated in UTC. *)
Lemma search_recent_never_returns_a_paper_witness :
  (forall request results,
     ArxivClient.fetched _ (Examples2.answers_one request) = Ok results ->
     Forall (fun r => Recent.has_tzinfo (ArxivResults.published r) = true)
            results)
  /\ (Recent.search_recent Examples2.answers_one 10 Recent.published_lt
        Recent.published_gt Examples4.today (ArxivClient.VStr [113]) 2 10).2
     = Raise (Recent.ComparisonFailed Recent.naive_and_aware).
Proof.
  assert (Haware : forall request results,
    ArxivClient.fetched _ (Examples2.answers_one request) = Ok results ->
    Forall (fun r => Recent.has_tzinfo (ArxivResults.published r) = true)
           results).
  { intros request results [= <-]. constructor; [|constructor].
    vm_compute. reflexivity. }
  split; [exact Haware|].
  pose proof (search_recent_never_returns_a_paper Examples2.answers_one 10
                Examples4.today (ArxivClient.VStr [113]) 2 10 Haware)
    as Hrun.
  cbv zeta in Hrun.
  destruct (Recent.search_recent Examples2.answers_one 10
              Recent.published_lt Recent.published_gt Examples4.today
              (ArxivClient.VStr [113]) 2 10).2 as [items|[e|d|e]] eqn:Heq.
  - exfalso. destruct Hrun as (_ & Hnil & _). vm_compute in Hnil.
    discriminate Hnil.
  - exfalso. vm_compute in Hrun. discriminate Hrun.
  - exfalso. destruct Hrun as (_ & _ & Hout). apply Hout. vm_compute.
    split; discriminate.
  - destruct Hrun as [-> _]. reflexivity.
Defined.

(** ** The name of an exported file *)

Lemma lstrip_elem c s : c ∈ lstrip s -> c ∈ s.
Proof.
  induction s as [|d s IH]; simpl; [done|].
  destruct (isspace d); [|done]. intros H. right. by apply IH.
Qed.

Lemma rstrip_elem c s : c ∈ rstrip s -> c ∈ s.
Proof.
  unfold rstrip. rewrite elem_of_reverse. intros H%lstrip_elem.
  by apply elem_of_reverse.
Qed.

Lemma replace_char (a b : N) (s : pystr) :
  replace [a] [b] s = (fun c => if a =? c then b else c) <$> s.
Proof.
  unfold replace. induction s as [|c s IH]; [done|].
  cbn [replace_go startswith length Nat.pred fmap list_fmap].
  destruct (a =? c); cbn [andb app]; by rewrite IH.
Qed.

(** X20. The part of the name of an exported file that comes from the
    topic has 50 code points at most and no space in it, and each of its
    code points is alphanumeric, a hyphen or an underscore: whatever
    [isalnum] rejects among the other code points of the topic, such as
    a slash or a dot, does not reach the file name. *)
Theorem topic_safe_is_safe :
  forall (isalnum : N -> bool) (topic : option pystr),
    (length (ExportResults.topic_safe isalnum topic) <= 50)%nat
    /\ forall c,
         c ∈ ExportResults.topic_safe isalnum topic ->
         c <> 32
         /\ (isalnum c = true \/ c = 45 \/ c = 95)
         /\ (c = 95 \/ c ∈ default (py "review") topic).
Proof.
  intros isalnum topic. unfold ExportResults.topic_safe. split.
  - rewrite length_take. lia.
  - intros c Hc. apply elem_of_take in Hc as (i & Hc & _).
    apply list_elem_of_lookup_2 in Hc.
    rewrite replace_char in Hc.
    apply list_elem_of_fmap in Hc as (d & -> & Hd).
    apply rstrip_elem in Hd.
    apply list_elem_of_filter in Hd as [Hkept Hd].
    unfold ExportResults.kept in Hkept.
    assert (Hclass : isalnum d = true \/ d = 32 \/ d = 45 \/ d = 95).
    { destruct (isalnum d); [by left|right].
      destruct (N.eqb_spec d 32) as [H32|_]; [by left|right].
      destruct (N.eqb_spec d 45) as [H45|_]; [by left|right].
      by destruct (N.eqb_spec d 95) as [H95|_]. }
    clear Hkept.
    destruct (N.eqb_spec 32 d) as [H32|Hne].
    + split; [done|]. split; [by right; right|by left].
    + split; [congruence|]. split; [|by right].
      destruct Hclass as [H|[H|[H|H]]]; [by left|congruence|..].
      * by right; left.
      * by right; right.
Qed.

(** ** Embeddings from Ollama *)

Lemma ollama_loop_calls (Vec : Type)
    (transport :
       LLMGateway.HttpRequest LLMGateway.EmbeddingPayload -> Z ->
       LLMManager.Outcome (LLMGateway.Body Vec))
    (config : LLMGateway.Config) (m : LLMGateway.Manager) (model : pystr)
    (texts : list pystr) :
  let call_of (text : pystr) :=
    LLMGateway._make_request Vec transport config m (py "embeddings")
      (LLMGateway.ModelPrompt model text) in
  let answer (text : pystr) : option Vec :=
    match (call_of text).2 with
    | Ok response_data => LLMGateway.embedding Vec response_data
    | Raise _ => None
    end in
  let run := LLMGateway.ollama_loop Vec transport config m model texts in
  run.1 = (fun text => (call_of text).1) <$> take (length run.1) texts
  /\ Forall (fun text => is_Some (answer text))
            (take (Nat.pred (length run.1)) texts)
  /\ match run.2 with
     | Ok vectors =>
       length run.1 = length texts /\ Some <$> vectors = answer <$> texts
     | Raise e =>
       exists text,
         texts !! Nat.pred (length run.1) = Some text
         /\ run.1 <> []
         /\ answer text = None
     end.
Proof.
  intros call_of answer.
  induction texts as [|text texts IH]; [by repeat split|].
  cbn [LLMGateway.ollama_loop]. cbv zeta in IH.
  assert (Hanswer : answer text
                    = match (call_of text).2 with
                      | Ok response_data =>
                        LLMGateway.embedding Vec response_data
                      | Raise _ => None
                      end) by reflexivity.
  change (LLMGateway._make_request Vec transport config m
            (py "embeddings") (LLMGateway.ModelPrompt model text))
    with (call_of text).
  destruct (call_of text) as [call outcome] eqn:Hcall.
  cbn [snd] in Hanswer.
  destruct outcome as [response_data|e].
  - destruct (LLMGateway.embedding Vec response_data) as [v|].
    + destruct IH as (IH1 & IH2 & IH3).
      cbn [fst snd length take fmap list_fmap Nat.pred].
      split; [|split].
      * rewrite Hcall. cbn [fst]. f_equal. exact IH1.
      * destruct (LLMGateway.ollama_loop Vec transport config m model
                    texts).1 as [|c cs] eqn:Hcalls;
          cbn [length take Nat.pred] in *; [constructor|].
        constructor; [by rewrite Hanswer|exact IH2].
      * destruct (LLMGateway.ollama_loop Vec transport config m model
                    texts).2 as [vs|e].
        -- destruct IH3 as [H1 H2]. split; [by rewrite H1|].
           rewrite !fmap_cons. by rewrite Hanswer, H2.
        -- destruct IH3 as (t & Ht & Hne & Hnone).
           exists t. split; [|split; [done|exact Hnone]].
           destruct (LLMGateway.ollama_loop Vec transport config m model
                       texts).1 as [|c cs]; [done|exact Ht].
    + cbn [fst snd length take fmap list_fmap Nat.pred].
      rewrite Hcall. split; [done|]. split; [constructor|].
      exists text. by split.
  - cbn [fst snd length take fmap list_fmap Nat.pred].
    rewrite Hcall. split; [done|]. split; [constructor|].
    exists text. by split.
Qed.

Lemma ollama_is_not_mock : bool_decide (py "ollama" = py "mock") = false.
Proof. vm_compute. reflexivity. Qed.

Lemma ollama_is_not_openai : bool_decide (py "ollama" = py "openai") = false.
Proof. vm_compute. reflexivity. Qed.

(** X21. With Ollama, [generate_embedding] asks for one text at a time,
    in the order of the input, with the same model every time and
    without an [Authorization] header, and it stops at the first text
    for which the request fails or the response has no [embedding]:
    every request before the last has been answered with a vector, and
    when [generate_embedding] raises after a request, that request is
    the one that was not.  When it returns, it has asked once for each
    text, and the vectors are the answers to the texts, in order.  The
    manager is as it was. *)
Theorem ollama_embeds_text_by_text :
  forall (Vec : Type) (mock_vector : Z -> Vec)
         (transport :
            LLMGateway.HttpRequest LLMGateway.EmbeddingPayload -> Z ->
            LLMManager.Outcome (LLMGateway.Body Vec))
         (config : LLMGateway.Config) (m : LLMGateway.Manager)
         (input_texts : list pystr) (embedding_model : option pystr),
    LLMGateway.provider m = py "ollama" ->
    let run :=
      LLMGateway.generate_embedding Vec mock_vector transport config m
        input_texts embedding_model in
    let model_to_use :=
      if truthy embedding_model then embedding_model
      else LLMGateway.ollama_embedding_model config in
    let call_of (text : pystr) :=
      LLMGateway._make_request Vec transport config m (py "embeddings")
        (LLMGateway.ModelPrompt (default [] model_to_use) text) in
    let answer (text : pystr) : option Vec :=
      match (call_of text).2 with
      | Ok response_data => LLMGateway.embedding Vec response_data
      | Raise _ => None
      end in
    run.1.1 = m
    /\ run.1.2
       = (fun text => (call_of text).1)
           <$> take (length run.1.2) input_texts
    /\ Forall (fun call =>
                 LLMGateway.authorization call.1 = None
                 /\ exists text,
                      LLMGateway.payload call.1
                      = LLMGateway.ModelPrompt (default [] model_to_use)
                          text)
              run.1.2
    /\ Forall (fun text => is_Some (answer text))
              (take (Nat.pred (length run.1.2)) input_texts)
    /\ match run.2 with
       | Ok vectors =>
         truthy model_to_use = true
         /\ length run.1.2 = length input_texts
         /\ Some <$> vectors = answer <$> input_texts
       | Raise e =>
         (truthy model_to_use = false /\ run.1.2 = [])
         \/ exists text,
              input_texts !! Nat.pred (length run.1.2) = Some text
              /\ run.1.2 <> []
              /\ answer text = None
       end.
Proof.
  intros Vec mock_vector transport config m input_texts embedding_model
    Hprov run model_to_use call_of answer.
  subst run. unfold LLMGateway.generate_embedding.
  rewrite Hprov, ollama_is_not_mock, ollama_is_not_openai.
  rewrite bool_decide_eq_true_2 by reflexivity.
  fold model_to_use.
  destruct (truthy model_to_use) eqn:Hmodel; cbn [negb fst snd].
  - destruct (ollama_loop_calls Vec transport config m
                (default [] model_to_use) input_texts)
      as (H1 & H2 & H3).
    fold call_of in H1. fold call_of answer in H2, H3.
    split; [done|]. split; [exact H1|]. split; [|split; [exact H2|]].
    + rewrite H1. apply Forall_fmap, Forall_forall. intros text _.
      cbn [fst LLMGateway._make_request call_of]. split.
      * unfold call_of, LLMGateway._make_request, LLMGateway.request_of,
          LLMGateway.bearer.
        cbn [fst LLMGateway.authorization]. rewrite Hprov.
        rewrite bool_decide_eq_true_2 by reflexivity.
        by rewrite andb_false_r.
      * by exists text.
    + destruct (LLMGateway.ollama_loop _ _ _ _ _ _).2 as [vectors|e].
      * by destruct H3.
      * by right.
  - split; [done|]. split; [done|]. split; [constructor|].
    split; [constructor|]. by left.
Qed.

(** X21 on two texts and an Ollama server that answers. *)
Lemma ollama_embeds_text_by_text_witness :
  LLMGateway.provider Examples5.ollama_manager = py "ollama"
  /\ (LLMGateway.generate_embedding (list Z) (fun n => [])
        Examples5.embeds Examples3.deepseek_config
        Examples5.ollama_manager [py "a"; py "b"] None).1.1
     = Examples5.ollama_manager.
Proof.
  split; [reflexivity|].
  exact (proj1 (ollama_embeds_text_by_text (list Z) (fun n => [])
                  Examples5.embeds Examples3.deepseek_config
                  Examples5.ollama_manager [py "a"; py "b"] None eq_refl)).
Defined.
